(** * Healthcare data analysis: the EDA pipeline of [notebooks/analysis.py]

    A shallow embedding of the report generator. The table is a list of
    named columns, each with its dtype and with [None] for a missing cell.
    Every analyzer is a computation that writes a trace of events (console
    output, charts drawn, figures saved) and ends with a result or an
    exception. The process is the module initialisation followed by [main].

    Times and time differences are 64-bit counts of nanoseconds: a
    difference that leaves the range raises. Numbers are exact rationals
    where the program has binary floats, and rounding is to the nearest
    value with ties to even; a digit the program prints can differ in the
    last place from the exact one, and the theorems below are about which
    rows enter a value, about order and about bounds.

    The statistics of [describe()] and [corr()] and the rendering of charts
    are not expanded: the events carry the data they are computed from. An
    analyzer raises on a missing column, on a column of the wrong dtype, on
    text where [corr()] needs numbers, and on a bar chart without bars. The
    order among equal counts or equal values in a sorted result is that of
    the sort used here, not necessarily that of the library. *)

From Stdlib Require Import ZArith QArith Qround Qabs Ascii String List Lia Lqa.
From stdpp Require Import base option list sorting gmap strings.

Local Open Scope string_scope.
Local Open Scope list_scope.

(** ** Data model *)

(** A value used as a group key, an index entry or a pivot column name. *)
Inductive label :=
| LNum (q : Q)
| LStr (s : string)
| LTime (t : Z).

(** A column with its dtype. A missing cell (NaN, NaT) is [None].
    Timestamps and time differences are nanosecond counts. *)
Inductive Series :=
| FloatSeries (xs : list (option Q))
| ObjectSeries (xs : list (option string))
| DatetimeSeries (xs : list (option Z))
| TimedeltaSeries (xs : list (option Z)).

(** The columns in the order of [df.columns]. *)
Definition DataFrame := list (string * Series).

Inductive Exn :=
| KeyError (col : string)
| TypeError
| ValueError
| IndexError
| OverflowError
| AttributeError
| FileError
| SystemExit (code : Z).

(** An indexed one-column result, and a two-dimensional one. *)
Definition ISeries := list (label * option Q).

Record Table := mkTable {
  index : list label;
  tcolumns : list (label * list (option Q))
}.

(** A chart as it is drawn on the current figure. *)
Inductive Chart :=
| BarChart (title : string) (data : ISeries)
| LineChart (title : string) (data : ISeries)
| ScatterChart (title x y : string) (df : DataFrame).

(** What the process does to the outside: console lines and printed values,
    the chart drawn, the figure saved. [PrintPath prefix p] is the line
    [prefix] followed by [p.resolve()]. *)
Inductive Event :=
| Draw (c : Chart)
| Print (s : string)
| PrintCount (prefix : string) (n : nat)
| PrintPath (prefix : string) (p : string)
| PrintSeries (s : ISeries)
| PrintTable (t : Table)
| PrintFrame (what : string) (df : DataFrame)
| SaveFig (path : string) (dpi : Z).

(** ** Computations: a trace of events and a result or an exception *)

Definition M (A : Type) : Type := (list Event * (Exn + A))%type.

Definition ret {A} (a : A) : M A := ([], inr a).

Definition raise {A} (e : Exn) : M A := ([], inl e).

Definition emit (ev : Event) : M unit := ([ev], inr tt).

Definition bind {A B} (m : M A) (k : A -> M B) : M B :=
  match m with
  | (out, inl e) => (out, inl e)
  | (out, inr a) => let '(out', r) := k a in (out ++ out', r)
  end.

Notation "'let*' x := m 'in' k" := (bind m (fun x => k))
  (at level 10, x name, m at level 100, k at level 200, only parsing).
Notation "m >> k" := (bind m (fun _ => k))
  (at level 100, k at level 200, right associativity, only parsing).

Definition trace {A} (m : M A) : list Event := fst m.
Definition outcome {A} (m : M A) : Exn + A := snd m.

(** ** Columns *)

Definition columns (df : DataFrame) : list string := df.*1.

Definition has_column (col : string) (df : DataFrame) : bool :=
  bool_decide (col ∈ columns df).

Fixpoint lookup_col (col : string) (df : DataFrame) : option Series :=
  match df with
  | [] => None
  | (c, s) :: rest => if decide (c = col) then Some s else lookup_col col rest
  end.

(** [df[col]] *)
Definition getitem (col : string) (df : DataFrame) : M Series :=
  match lookup_col col df with
  | Some s => ret s
  | None => raise (KeyError col)
  end.

(** [df[col] = s]: in place when the column exists, appended otherwise. *)
Fixpoint setitem (col : string) (s : Series) (df : DataFrame) : DataFrame :=
  match df with
  | [] => [(col, s)]
  | (c, s') :: rest =>
      if decide (c = col) then (col, s) :: rest
      else (c, s') :: setitem col s rest
  end.

Definition isnull {A} (c : option A) : bool :=
  match c with Some _ => false | None => true end.

(** [s.isna()] *)
Definition isna (s : Series) : list bool :=
  match s with
  | FloatSeries xs => isnull <$> xs
  | ObjectSeries xs => isnull <$> xs
  | DatetimeSeries xs => isnull <$> xs
  | TimedeltaSeries xs => isnull <$> xs
  end.

Definition any (bs : list bool) : bool := existsb id bs.
Definition all (bs : list bool) : bool := forallb id bs.

Definition series_len (s : Series) : nat := length (isna s).

(** ** Deriving the length of stay (the first block of [main]) *)

Definition ns_per_day : Z := 86400000000000.

Definition sub_cell (x y : option Z) : option Z :=
  match x, y with
  | Some a, Some b => Some (a - b)%Z
  | _, _ => None
  end.

(** A time is stored as a 64-bit integer, and the smallest one is the
    marker of a missing time. *)
Definition int64_min : Z := (-9223372036854775808)%Z.
Definition int64_max : Z := 9223372036854775807%Z.

Definition overflows (c : option Z) : bool :=
  match c with
  | Some d => (d <? int64_min)%Z || (int64_max <? d)%Z
  | None => false
  end.

Definition stored_time (c : option Z) : option Z :=
  match c with
  | Some d => if (d =? int64_min)%Z then None else Some d
  | None => None
  end.

(** Some row's difference does not fit in 64 bits. *)
Definition difference_overflows (xs ys : list (option Z)) : bool :=
  existsb overflows (zip_with sub_cell xs ys).

(** The differences of two columns of times, with the overflow check of the
    library; a difference equal to the marker reads as missing. *)
Definition sub_times (xs ys : list (option Z)) : M (list (option Z)) :=
  if difference_overflows xs ys then raise OverflowError
  else ret (stored_time <$> zip_with sub_cell xs ys).

(** [a - b] on two columns of one frame. *)
Definition series_sub (a b : Series) : M Series :=
  match a, b with
  | DatetimeSeries xs, DatetimeSeries ys =>
      let* ds := sub_times xs ys in ret (TimedeltaSeries ds)
  | TimedeltaSeries xs, TimedeltaSeries ys =>
      let* ds := sub_times xs ys in ret (TimedeltaSeries ds)
  | DatetimeSeries xs, TimedeltaSeries ys =>
      let* ds := sub_times xs ys in ret (DatetimeSeries ds)
  | FloatSeries xs, FloatSeries ys =>
      ret (FloatSeries (zip_with
             (fun x y => match x, y with
                         | Some p, Some q => Some (p - q)%Q
                         | _, _ => None
                         end) xs ys))
  | _, _ => raise TypeError
  end.

(** [s.dt.days]: the day component of a time difference rounds down. *)
Definition dt_days (s : Series) : M Series :=
  match s with
  | TimedeltaSeries xs =>
      ret (FloatSeries (fmap (option_map (fun d => inject_Z (d / ns_per_day))) xs))
  | _ => raise AttributeError
  end.

Definition clip_cell (lower : Q) (q : Q) : Q :=
  if Qlt_le_dec q lower then lower else q.

(** [s.clip(lower=lower)] *)
Definition clip (lower : Q) (s : Series) : M Series :=
  match s with
  | FloatSeries xs => ret (FloatSeries (fmap (option_map (clip_cell lower)) xs))
  | _ => raise TypeError
  end.

(** Lines 162-166. The difference of line 163 is computed before the guard
    of line 165 is looked at. *)
Definition derive_length_of_stay (df : DataFrame) : M DataFrame :=
  if has_column "Admission_Date" df && has_column "Discharge_Date" df then
    let* dis := getitem "Discharge_Date" df in
    let* adm := getitem "Admission_Date" df in
    let* delta := series_sub dis adm in
    let* calc_los := dt_days delta in
    let* stale :=
      (if negb (has_column "Length_of_Stay" df) then ret true
       else let* los := getitem "Length_of_Stay" df in ret (any (isna los))) in
    if stale : bool then
      let* clipped := clip 0 calc_los in
      ret (setitem "Length_of_Stay" clipped df)
    else ret df
  else ret df.

(** The whole-day difference of a row, floored at zero; missing when a date is. *)
Definition clamped_days (a d : option Z) : option Q :=
  match a, d with
  | Some ta, Some td => Some (inject_Z (Z.max 0 ((td - ta) / ns_per_day)))
  | _, _ => None
  end.

(** ** Labels, groups and aggregation *)

Global Instance Q_eq_dec : EqDecision Q.
Proof. solve_decision. Defined.

Global Instance label_eq_dec : EqDecision label.
Proof. solve_decision. Defined.

(** The values of a column as group keys; numbers in lowest terms. *)
Definition labels (s : Series) : list (option label) :=
  match s with
  | FloatSeries xs => fmap (option_map (fun q => LNum (Qred q))) xs
  | ObjectSeries xs => fmap (option_map LStr) xs
  | DatetimeSeries xs => fmap (option_map LTime) xs
  | TimedeltaSeries xs => fmap (option_map LTime) xs
  end.

Definition label_leb (a b : label) : bool :=
  match a, b with
  | LNum p, LNum q => Qle_bool p q
  | LStr s, LStr t => String.leb s t
  | LTime s, LTime t => Z.leb s t
  | LNum _, _ => true
  | LStr _, LNum _ => false
  | LStr _, LTime _ => true
  | LTime _, _ => false
  end.

Definition label_le (a b : label) : Prop := label_leb a b = true.

Global Instance label_le_dec : RelDecision label_le.
Proof. intros a b. unfold label_le. apply _. Defined.

(** The distinct non-missing values, in sorted order (group keys, pivot axes). *)
Definition unique (ks : list (option label)) : list label :=
  merge_sort label_le (remove_dups (omap id ks)).

(** The entries of [xs] on the rows whose key is [k]. *)
Definition group_rows {A} (k : label) (ks : list (option label)) (xs : list A) : list A :=
  (filter (fun p => p.1 = Some k) (zip ks xs)).*2.

Definition Qsum (xs : list Q) : Q := foldr Qplus 0%Q xs.

(** [mean()] skips missing cells; it is missing when nothing is left. *)
Definition mean (xs : list (option Q)) : option Q :=
  match omap id xs with
  | [] => None
  | vals => Some (Qsum vals / inject_Z (Z.of_nat (length vals)))%Q
  end.

(** Rounding to the nearest integer, ties to the even one. *)
Definition round_half_even (x : Q) : Z :=
  let f := Qfloor x in
  match (x - inject_Z f ?= 1 # 2)%Q with
  | Lt => f
  | Gt => (f + 1)%Z
  | Eq => if Z.even f then f else (f + 1)%Z
  end.

Fixpoint pow10 (digits : nat) : positive :=
  match digits with
  | O => 1%positive
  | S d => (10 * pow10 d)%positive
  end.

(** [round(digits)] on one number. *)
Definition round_to (digits : nat) (x : Q) : Q :=
  Qred (round_half_even (x * inject_Z (Zpos (pow10 digits))) # pow10 digits).

Definition round_series (digits : nat) (s : ISeries) : ISeries :=
  fmap (fun p => (p.1, option_map (round_to digits) p.2)) s.

(** Descending order of the values, missing values last. *)
Definition value_geb (x y : option Q) : bool :=
  match x, y with
  | Some p, Some q => Qle_bool q p
  | Some _, None => true
  | None, Some _ => false
  | None, None => true
  end.

Definition entry_ge (a b : label * option Q) : Prop := value_geb a.2 b.2 = true.

Global Instance entry_ge_dec : RelDecision entry_ge.
Proof. intros a b. unfold entry_ge. apply _. Defined.

(** [s.sort_values(ascending=False)] *)
Definition sort_values_desc (s : ISeries) : ISeries := merge_sort entry_ge s.

(** [groupby(keys)[vals].mean()] *)
Definition groupby_mean (keys vals : Series) : M ISeries :=
  match vals with
  | FloatSeries xs =>
      ret (fmap (fun k => (k, mean (group_rows k (labels keys) xs)))
               (unique (labels keys)))
  | _ => raise TypeError
  end.

Definition count_label (v : label) (xs : list (option label)) : nat :=
  length (filter (fun x => x = Some v) xs).

Definition count_ge (a b : label * nat) : Prop := b.2 <= a.2.

Global Instance count_ge_dec : RelDecision count_ge.
Proof. intros a b. unfold count_ge. apply _. Defined.

(** [value_counts()]: the non-missing values with their counts, largest first. *)
Definition value_counts (xs : list (option label)) : list (label * nat) :=
  merge_sort count_ge (fmap (fun v => (v, count_label v xs)) (unique xs)).

Definition of_nat (n : nat) : Q := inject_Z (Z.of_nat n).

(** [value_counts(normalize=True)]: each count over the sum of the counts. *)
Definition value_counts_normalized (xs : list (option label)) : list (label * Q) :=
  let vc := value_counts xs in
  let total := sum_list (vc.*2) in
  fmap (fun p => (p.1, (of_nat p.2 / of_nat total)%Q)) vc.

(** ** Console helpers *)

Definition newline : string := String "010"%char "".

Fixpoint repeat_string (s : string) (n : nat) : string :=
  match n with
  | O => ""
  | S k => s +:+ repeat_string s k
  end.

Definition h1 (title : string) : M unit :=
  emit (Print (newline +:+ repeat_string "=" (String.length title))) >>
  emit (Print title) >>
  emit (Print (repeat_string "=" (String.length title))).

Definition h2 (title : string) : M unit :=
  emit (Print (newline +:+ title)) >>
  emit (Print (repeat_string "-" (String.length title))).

Definition FIG_DIR : string := "reports/figs".

Definition path_join (dir file : string) : string := dir +:+ "/" +:+ file.

(** The axis label, the layout and [plt.close()] leave no event. *)
Definition save_bar (filename : string) : M unit :=
  let out := path_join FIG_DIR filename in
  emit (SaveFig out 140) >>
  emit (PrintPath "[saved] " out).

(** [data.plot(kind="bar", title=title)]: the event records the call with
    the data handed to it; the plotting library raises when the series has
    no entry to draw. *)
Definition plot_bar (title : string) (data : ISeries) : M unit :=
  emit (Draw (BarChart title data)) >>
  match data with
  | [] => raise IndexError
  | _ :: _ => ret tt
  end.

(** ** The analyzers *)

Definition series_take (n : nat) (s : Series) : Series :=
  match s with
  | FloatSeries xs => FloatSeries (take n xs)
  | ObjectSeries xs => ObjectSeries (take n xs)
  | DatetimeSeries xs => DatetimeSeries (take n xs)
  | TimedeltaSeries xs => TimedeltaSeries (take n xs)
  end.

(** [len(df)] *)
Definition nrows (df : DataFrame) : nat :=
  match df with
  | [] => 0
  | (_, s) :: _ => series_len s
  end.

(** [df.head()] *)
Definition head (df : DataFrame) : DataFrame :=
  fmap (fun p => (p.1, series_take 5 p.2)) df.

Definition join_comma (names : list string) : string := String.concat ", " names.

Definition basic_overview (df : DataFrame) : M unit :=
  h1 "Dataset Overview" >>
  emit (PrintCount "Rows: " (nrows df)) >>
  emit (PrintCount "Columns: " (length (columns df))) >>
  h2 "Columns" >>
  emit (Print (join_comma (columns df))) >>
  h2 "Sample (first 5)" >>
  emit (PrintFrame "head" (head df)).

(** [df[cols]] with a list of names; the first absent one is reported. *)
Fixpoint select_columns (cols : list string) (df : DataFrame) : M DataFrame :=
  match cols with
  | [] => ret []
  | c :: rest =>
      let* s := getitem c df in
      let* sub := select_columns rest df in
      ret ((c, s) :: sub)
  end.

Definition count_true (bs : list bool) : nat := length (filter (fun b => b = true) bs).

(** [df.isna().sum()] *)
Definition missing_counts (df : DataFrame) : ISeries :=
  fmap (fun p => (LStr p.1, Some (of_nat (count_true (isna p.2))))) df.

(** The statistics of [describe()] are not expanded: the event carries the
    selected columns they are computed from. *)
Definition summary_stats (df : DataFrame) : M unit :=
  h1 "Summary Statistics" >>
  let* numeric := select_columns ["Length_of_Stay"; "Cost"] df in
  emit (PrintFrame "describe" numeric) >>
  h2 "Missing Values (count)" >>
  emit (PrintSeries (missing_counts df)).

Definition counts_series (vc : list (label * nat)) : ISeries :=
  fmap (fun p => (p.1, Some (of_nat p.2))) vc.

Definition admissions_by_department (df : DataFrame) : M unit :=
  h1 "Admissions by Department" >>
  let* dept := getitem "Department" df in
  let counts := counts_series (value_counts (labels dept)) in
  emit (PrintSeries counts) >>
  plot_bar "Admissions by Department" (sort_values_desc counts) >>
  save_bar "admissions_by_department.png".

(** Line 89: mean cost per department, largest first, two decimals. *)
Definition dept_cost (df : DataFrame) : M ISeries :=
  let* dept := getitem "Department" df in
  let* cost := getitem "Cost" df in
  let* means := groupby_mean dept cost in
  ret (round_series 2 (sort_values_desc means)).

Definition avg_cost_per_department (df : DataFrame) : M unit :=
  h1 "Average Cost per Department" >>
  let* dept_cost := dept_cost df in
  emit (PrintSeries dept_cost) >>
  plot_bar "Average Cost per Patient (by Department)" dept_cost >>
  save_bar "avg_cost_by_department.png".

(** Lines 104-107: one record per department and category that occurs in it. *)
Definition dept_readmission_pct (dept readm : Series) : list (label * label * Q) :=
  mbind
    (fun d => fmap (fun p => (d, p.1, (p.2 * 100)%Q))
                   (value_counts_normalized (group_rows d (labels dept) (labels readm))))
    (unique (labels dept)).

Definition pivot_cell (d r : label) (recs : list (label * label * Q)) : option Q :=
  (fun x => x.2.2) <$> list_find (fun x => x.1 = (d, r)) recs.

(** [pivot(index, columns, values)]: a cell without a record is missing. *)
Definition pivot (recs : list (label * label * Q)) : Table :=
  let idx := unique (fmap (fun x => Some x.1.1) recs) in
  let cols := unique (fmap (fun x => Some x.1.2) recs) in
  mkTable idx (fmap (fun c => (c, fmap (fun d => pivot_cell d c recs) idx)) cols).

Definition table_map (f : option Q -> option Q) (t : Table) : Table :=
  mkTable (index t)
          (fmap (fun c : label * list (option Q) => (c.1, fmap f c.2)) (tcolumns t)).

Definition fill_cell (v : Q) (c : option Q) : option Q :=
  match c with
  | Some q => Some q
  | None => Some v
  end.

Definition fillna (v : Q) (t : Table) : Table := table_map (fill_cell v) t.

Definition table_round (digits : nat) (t : Table) : Table :=
  table_map (option_map (round_to digits)) t.

Definition table_has_column (col : string) (t : Table) : bool :=
  bool_decide (LStr col ∈ (tcolumns t).*1).

Fixpoint set_column (col : label) (cells : list (option Q))
    (cs : list (label * list (option Q))) : list (label * list (option Q)) :=
  match cs with
  | [] => [(col, cells)]
  | (c, old) :: rest =>
      if decide (c = col) then (col, cells) :: rest
      else (c, old) :: set_column col cells rest
  end.

(** [t[col] = v] with a scalar [v] *)
Definition table_setitem (col : string) (v : Q) (t : Table) : Table :=
  mkTable (index t)
          (set_column (LStr col) (replicate (length (index t)) (Some v)) (tcolumns t)).

Fixpoint lookup_tcol (col : label) (cs : list (label * list (option Q)))
    : option (list (option Q)) :=
  match cs with
  | [] => None
  | (c, cells) :: rest => if decide (c = col) then Some cells else lookup_tcol col rest
  end.

Definition table_getitem (col : string) (t : Table) : M (list (option Q)) :=
  match lookup_tcol (LStr col) (tcolumns t) with
  | Some cells => ret cells
  | None => raise (KeyError col)
  end.

Fixpoint table_select_columns (cols : list string) (t : Table)
    : M (list (label * list (option Q))) :=
  match cols with
  | [] => ret []
  | c :: rest =>
      let* cells := table_getitem c t in
      let* sub := table_select_columns rest t in
      ret ((LStr c, cells) :: sub)
  end.

(** [t[cols]] *)
Definition table_select (cols : list string) (t : Table) : M Table :=
  let* cs := table_select_columns cols t in
  ret (mkTable (index t) cs).

(** Lines 112-114 *)
Definition ensure_columns (cols : list string) (t : Table) : Table :=
  fold_left (fun t col => if table_has_column col t then t else table_setitem col 0 t)
            cols t.

(** Lines 103-115: the per-department table. *)
Definition by_dept (df : DataFrame) : M Table :=
  let* dept := getitem "Department" df in
  let* readm := getitem "Readmission" df in
  let t := table_round 1 (fillna 0 (pivot (dept_readmission_pct dept readm))) in
  table_select ["No"; "Yes"] (ensure_columns ["No"; "Yes"] t).

(** Line 98 *)
Definition overall (readm : Series) : ISeries :=
  fmap (fun p => (p.1, Some (round_to 1 (p.2 * 100))))
      (value_counts_normalized (labels readm)).

Definition readmission_rates (df : DataFrame) : M unit :=
  h1 "Readmission Rates" >>
  let* readm := getitem "Readmission" df in
  emit (Print "Overall:") >>
  emit (PrintSeries (overall readm)) >>
  h2 "By Department:" >>
  let* by_dept := by_dept df in
  emit (PrintTable by_dept) >>
  let* yes := table_getitem "Yes" by_dept in
  let yes_rates := sort_values_desc (zip (index by_dept) yes) in
  plot_bar "Readmission Rate (YES) by Department" yes_rates >>
  save_bar "readmission_yes_by_department.png".

(** What [corr()] does to a column before it computes anything: the cells
    are cast to floats. Text does not cast, and neither does a time. *)
Definition as_float (s : Series) : M unit :=
  match s with
  | FloatSeries _ => ret tt
  | ObjectSeries xs => if all (isnull <$> xs) then ret tt else raise ValueError
  | DatetimeSeries _ | TimedeltaSeries _ => raise TypeError
  end.

(** [pair.corr()]. The coefficients are not expanded: the result stands for
    the columns they are computed from. *)
Fixpoint corr (pair : DataFrame) : M DataFrame :=
  match pair with
  | [] => ret []
  | (c, s) :: rest =>
      as_float s >>
      let* sub := corr rest in
      ret ((c, s) :: sub)
  end.

(** Line 126 computes the correlation before line 127 prints its caption. *)
Definition los_vs_cost (df : DataFrame) : M unit :=
  h1 "Length of Stay vs Cost" >>
  let* pair := select_columns ["Length_of_Stay"; "Cost"] df in
  let* pair := corr pair in
  emit (Print "Correlation matrix:") >>
  emit (PrintFrame "corr" pair) >>
  emit (Draw (ScatterChart "Length of Stay vs. Cost" "Length_of_Stay" "Cost" df)) >>
  let out := path_join FIG_DIR "length_of_stay_vs_cost.png" in
  emit (SaveFig out 140) >>
  emit (PrintPath "[saved] " out).

(** *** Calendar months *)

(** Days since 1970-01-01 of a proleptic Gregorian date, and back. *)
Definition days_from_civil (y m d : Z) : Z :=
  let y' := if (m <=? 2)%Z then (y - 1)%Z else y in
  let era := (y' / 400)%Z in
  let yoe := (y' - era * 400)%Z in
  let mp := ((m + 9) mod 12)%Z in
  let doy := ((153 * mp + 2) / 5 + d - 1)%Z in
  let doe := (yoe * 365 + yoe / 4 - yoe / 100 + doy)%Z in
  (era * 146097 + doe - 719468)%Z.

Definition civil_from_days (z : Z) : Z * Z * Z :=
  let z := (z + 719468)%Z in
  let era := (z / 146097)%Z in
  let doe := (z - era * 146097)%Z in
  let yoe := ((doe - doe / 1460 + doe / 36524 - doe / 146096) / 365)%Z in
  let y := (yoe + era * 400)%Z in
  let doy := (doe - (365 * yoe + yoe / 4 - yoe / 100))%Z in
  let mp := ((5 * doy + 2) / 153)%Z in
  let d := (doy - (153 * mp + 2) / 5 + 1)%Z in
  let m := if (mp <? 10)%Z then (mp + 3)%Z else (mp - 9)%Z in
  (if (m <=? 2)%Z then (y + 1)%Z else y, m, d).

(** [t.to_period("M").to_timestamp()]: midnight of the first day of the month. *)
Definition month_start (t : Z) : Z :=
  let '(y, m, _) := civil_from_days (t / ns_per_day) in
  (days_from_civil y m 1 * ns_per_day)%Z.

(** [s.dt.to_period("M").dt.to_timestamp()] *)
Definition to_month_start (s : Series) : M Series :=
  match s with
  | DatetimeSeries xs => ret (DatetimeSeries (fmap (option_map month_start) xs))
  | _ => raise AttributeError
  end.

Definition count_notna (bs : list bool) : nat := length (filter (fun b => b = false) bs).

(** [groupby(keys)[vals].count()]: the non-missing cells of each group. *)
Definition groupby_count (keys vals : Series) : list (label * nat) :=
  fmap (fun k => (k, count_notna (group_rows k (labels keys) (isna vals))))
      (unique (labels keys)).

(** Lines 142-146 *)
Definition monthly (df : DataFrame) : M (list (label * nat)) :=
  let* adm := getitem "Admission_Date" df in
  let* ym := to_month_start adm in
  let assigned := setitem "YearMonth" ym df in
  let* keys := getitem "YearMonth" assigned in
  let* pid := getitem "Patient_ID" assigned in
  ret (groupby_count keys pid).

Definition monthly_admissions (df : DataFrame) : M unit :=
  let* skip :=
    (if negb (has_column "Admission_Date" df) then ret true
     else let* adm := getitem "Admission_Date" df in ret (all (isna adm))) in
  if skip : bool then ret tt
  else
    h1 "Monthly Admissions Trend" >>
    let* monthly := monthly df in
    emit (PrintSeries (counts_series monthly)) >>
    emit (Draw (LineChart "Monthly Admissions" (counts_series monthly))) >>
    let out := path_join FIG_DIR "monthly_admissions.png" in
    emit (SaveFig out 140) >>
    emit (PrintPath "[saved] " out).

(** ** The pipeline: [main] after the dataset is loaded (lines 161-177) *)

Definition pipeline (df : DataFrame) : M unit :=
  let* df := derive_length_of_stay df in
  basic_overview df >>
  summary_stats df >>
  admissions_by_department df >>
  avg_cost_per_department df >>
  readmission_rates df >>
  los_vs_cost df >>
  monthly_admissions df >>
  h1 "Done" >>
  emit (PrintPath "Figures saved under: " FIG_DIR).

(** ** Files, loading and the process *)

(** A file is a CSV with the table [pd.read_csv] returns for it, or
    something else (a figure, an unreadable file). *)
Inductive File :=
| CsvFile (df : DataFrame)
| OtherFile.

Record FS := mkFS {
  dirs : gset string;
  files : gmap string File
}.

(** [Path(p).exists()] *)
Definition path_exists (fs : FS) (p : string) : bool :=
  bool_decide (p ∈ dirs fs) || bool_decide (is_Some (files fs !! p)).

Definition read_csv (fs : FS) (p : string) : M DataFrame :=
  match files fs !! p with
  | Some (CsvFile df) => ret df
  | _ => raise FileError
  end.

(** Line 22, evaluated when the module is loaded. *)
Definition DATA_PATH (fs : FS) : string :=
  if path_exists fs "notebooks"
  then "C:/Users/ag5488/Documents/VSC/Healthcare_Data_Analysis_Project/data/hospital_data.csv"
  else "data/hospital_data.csv".

Definition is_file (fs : FS) (p : string) : bool :=
  bool_decide (is_Some (files fs !! p)).

(** [Path("reports/figs").mkdir(parents=True, exist_ok=True)]: it fails only
    when a regular file is in the way. *)
Definition mkdir_fig_dir (fs : FS) : Exn + FS :=
  if is_file fs "reports" || is_file fs FIG_DIR then inl FileError
  else inr (mkFS ({[ "reports" ]} ∪ {[ FIG_DIR ]} ∪ dirs fs) (files fs)).

(** The files [plt.savefig] leaves behind. *)
Definition saved_files (out : list Event) : list string :=
  omap (fun ev => match ev with SaveFig p _ => Some p | _ => None end) out.

Definition write_figures (out : list Event) (fs : FS) : FS :=
  mkFS (dirs fs) (foldr (fun p m => <[ p := OtherFile ]> m) (files fs) (saved_files out)).

(** The exit status of the interpreter. *)
Definition exit_status {A} (r : Exn + A) : Z :=
  match r with
  | inr _ => 0
  | inl (SystemExit code) => code
  | inl _ => 1
  end.

Section Loader.

(** [pd.to_datetime(s, errors="coerce")]: always a datetime column, with a
    missing cell wherever the entry cannot be parsed. *)
Variable to_datetime : Series -> list (option Z).

Definition parse_dates (df : DataFrame) : DataFrame :=
  fold_left
    (fun df col =>
       match lookup_col col df with
       | Some s => setitem col (DatetimeSeries (to_datetime s)) df
       | None => df
       end)
    ["Admission_Date"; "Discharge_Date"] df.

Definition load_data (fs : FS) (path : string) : M DataFrame :=
  if negb (path_exists fs path) then
    emit (PrintPath "Oops — I can't find the dataset at: " path) >>
    emit (Print "Make sure hospital_data.csv is in the /data folder.") >>
    raise (SystemExit 1)
  else
    let* df := read_csv fs path in
    ret (parse_dates df).

Definition main (fs : FS) (path : string) : M unit :=
  let* df := load_data fs path in
  pipeline df.

(** The whole run: module initialisation (lines 22-24), then [main()].
    It yields the file system left behind, the trace and the exit status. *)
Definition process (fs : FS) : FS * list Event * Z :=
  let data_path := DATA_PATH fs in
  match mkdir_fig_dir fs with
  | inl e => (fs, [], exit_status (inl e : Exn + unit))
  | inr fs1 =>
      let run := main fs1 data_path in
      (write_figures (trace run) fs1, trace run, exit_status (outcome run))
  end.

End Loader.

(** ** Notions used in the statements *)

(** The whole days of a column of differences, floored at zero. *)
Definition clamped (ds : list (option Z)) : list (option Q) :=
  fmap (option_map (clip_cell 0))
      (fmap (option_map (fun d => inject_Z (d / ns_per_day))) ds).

(** The candidate column: per row, the clamped whole-day difference. *)
Definition recomputed_los (adm dis : list (option Z)) : list (option Q) :=
  clamped (zip_with sub_cell dis adm).

(** The guard of line 165: no length of stay, or one with a missing value. *)
Definition los_incomplete (df : DataFrame) : bool :=
  match lookup_col "Length_of_Stay" df with
  | Some s => any (isna s)
  | None => true
  end.

(** A difference that a column of time differences holds as it is: it fits
    in 64 bits and is not the marker of a missing time. *)
Definition fits (c : option Z) : bool :=
  match c with
  | Some d => (int64_min <? d)%Z && (d <=? int64_max)%Z
  | None => true
  end.

(** Every row's difference fits: the two dates of a row are less than about
    292 years apart. *)
Definition differences_fit (xs ys : list (option Z)) : bool :=
  forallb fits (zip_with sub_cell xs ys).

(** The derivation read literally: with both date columns, a table without
    a complete length of stay gets the clamped whole-day difference on every
    row, and a table with a complete one is returned as it is. *)
Definition los_derivation_claimed (df : DataFrame) : Prop :=
  forall adm dis,
    lookup_col "Admission_Date" df = Some (DatetimeSeries adm) ->
    lookup_col "Discharge_Date" df = Some (DatetimeSeries dis) ->
    ((lookup_col "Length_of_Stay" df = None \/
      exists s, lookup_col "Length_of_Stay" df = Some s /\ any (isna s) = true) ->
     exists df' los,
       derive_length_of_stay df = ([], inr df') /\
       lookup_col "Length_of_Stay" df' = Some (FloatSeries los) /\
       length los = min (length dis) (length adm) /\
       forall i a d, adm !! i = Some a -> dis !! i = Some d ->
         los !! i = Some (clamped_days a d))
    /\
    (forall s, lookup_col "Length_of_Stay" df = Some s -> any (isna s) = false ->
       derive_length_of_stay df = ([], inr df)).


(** The length of stay of row [i]; [None] when it is missing. *)
Definition los_value (df : DataFrame) (i : nat) : option Q :=
  match lookup_col "Length_of_Stay" df with
  | Some (FloatSeries xs) => mjoin (xs !! i)
  | _ => None
  end.

(** The invariant of the data model, read literally: after the derivation
    the length of stay is non-negative on every row with both dates, and a
    row with a missing date keeps the value it had. *)
Definition los_invariant_claimed (df : DataFrame) : Prop :=
  forall adm dis df',
    lookup_col "Admission_Date" df = Some (DatetimeSeries adm) ->
    lookup_col "Discharge_Date" df = Some (DatetimeSeries dis) ->
    derive_length_of_stay df = ([], inr df') ->
    (forall i ta td, adm !! i = Some (Some ta) -> dis !! i = Some (Some td) ->
       exists q, los_value df' i = Some q /\ (0 <= q)%Q) /\
    (forall i, adm !! i = Some None \/ dis !! i = Some None ->
       los_value df' i = los_value df i).

(** The computation ends without an exception. *)
Definition succeeds {A} (m : M A) : Prop := exists a, outcome m = inr a.

(** The number of non-missing cells of a group: the divisor of its shares. *)
Definition group_total (g : list (option label)) : nat :=
  sum_list ((value_counts g).*2).

(** A cell of the per-department table: the percentage of the record for
    department [d] and category [c], zero without one, to one decimal. *)
Definition pct_cell (recs : list (label * label * Q)) (c : string) (d : label)
    : option Q :=
  Some (round_to 1 (default 0%Q (pivot_cell d (LStr c) recs))).

(** Both categories for every department, read literally: the table has
    the two columns, and a category that does not occur in a department of
    the data is in the table with 0.0 for that department. *)
Definition both_categories_claimed (df : DataFrame) : Prop :=
  forall dept readm t,
    lookup_col "Department" df = Some dept ->
    lookup_col "Readmission" df = Some readm ->
    by_dept df = ([], inr t) ->
    (tcolumns t).*1 = [LStr "No"; LStr "Yes"] /\
    forall d c, Some d ∈ labels dept -> c = "No" \/ c = "Yes" ->
      count_label (LStr c) (group_rows d (labels dept) (labels readm)) = 0 ->
      exists i cells,
        index t !! i = Some d /\
        lookup_tcol (LStr c) (tcolumns t) = Some cells /\
        cells !! i = Some (Some 0%Q).

(** One round of the loop of lines 112-114. *)
Definition ensure_column (t : Table) (col : string) : Table :=
  if table_has_column col t then t else table_setitem col 0 t.


(** The guard of the monthly analyzer: the column exists and has a
    non-missing value. *)
Definition has_admission_dates (df : DataFrame) : Prop :=
  exists s, lookup_col "Admission_Date" df = Some s /\ false ∈ isna s.

(** The computation ends with an exception. *)
Definition raises {A} (m : M A) : Prop := exists e, outcome m = inl e.

(** What the monthly analyzer needs when it runs: parsed admission dates
    and a [Patient_ID] column. *)
Definition monthly_ready (df : DataFrame) : Prop :=
  ~ has_admission_dates df \/
  exists adm pid,
    lookup_col "Admission_Date" df = Some (DatetimeSeries adm) /\
    lookup_col "Patient_ID" df = Some pid.

(** The analyzers of [main] after the derivation. *)
Definition report (df : DataFrame) : M unit :=
  basic_overview df >>
  summary_stats df >>
  admissions_by_department df >>
  avg_cost_per_department df >>
  readmission_rates df >>
  los_vs_cost df >>
  monthly_admissions df >>
  h1 "Done" >>
  emit (PrintPath "Figures saved under: " FIG_DIR).

(** Absent optional columns read literally: without date columns no
    exception leaves the pipeline. *)
Definition skips_silently_claimed (df : DataFrame) : Prop :=
  lookup_col "Admission_Date" df = None ->
  lookup_col "Discharge_Date" df = None ->
  succeeds (pipeline df).

(** The exit status read literally: 1 with a diagnostic naming the path when
    the input is missing, 0 for every input that exists and loads. *)
Definition exit_status_claimed (to_datetime : Series -> list (option Z))
    (fs : FS) (path : string) : Prop :=
  (path_exists fs path = false ->
   exit_status (outcome (main to_datetime fs path)) = 1%Z /\
   exists prefix, PrintPath prefix path ∈ trace (main to_datetime fs path)) /\
  (forall raw, files fs !! path = Some (CsvFile raw) ->
   exit_status (outcome (main to_datetime fs path)) = 0%Z).

(** One round of the loop of lines 55-57. *)
Definition parse_date_column (to_datetime : Series -> list (option Z))
    (df : DataFrame) (col : string) : DataFrame :=
  match lookup_col col df with
  | Some s => setitem col (DatetimeSeries (to_datetime s)) df
  | None => df
  end.

(** *** Sample tables *)

Definition timestamp (y m d : Z) : Z := (days_from_civil y m d * ns_per_day)%Z.

(** A row without a parsed admission date carries a length of stay, while
    another row misses it. *)
Definition partial_stays : DataFrame :=
  [ ("Patient_ID", ObjectSeries [Some "P1"; Some "P2"]);
    ("Admission_Date", DatetimeSeries [None; Some (timestamp 2024 1 10)]);
    ("Discharge_Date",
       DatetimeSeries [Some (timestamp 2024 1 12); Some (timestamp 2024 1 17)]);
    ("Length_of_Stay", FloatSeries [Some 5%Q; None]) ].

(** A fully populated column with a negative entry. *)
Definition negative_stays : DataFrame :=
  [ ("Admission_Date", DatetimeSeries [Some (timestamp 2024 1 10)]);
    ("Discharge_Date", DatetimeSeries [Some (timestamp 2024 1 12)]);
    ("Length_of_Stay", FloatSeries [Some (-3)%Q]) ].

(** Discharge before admission, and no length-of-stay column. *)
Definition inverted_dates : DataFrame :=
  [ ("Admission_Date",
       DatetimeSeries [Some (timestamp 2024 3 5); Some (timestamp 2024 2 27); None]);
    ("Discharge_Date",
       DatetimeSeries [Some (timestamp 2024 3 1); Some (timestamp 2024 3 2);
                       Some (timestamp 2024 3 9)]) ].

(** Valid timestamps five centuries apart, and no length-of-stay column. *)
Definition centuries_apart : DataFrame :=
  [ ("Admission_Date", DatetimeSeries [Some (timestamp 1700 1 1)]);
    ("Discharge_Date", DatetimeSeries [Some (timestamp 2200 1 1)]) ].

(** The intensive-care patient has no readmission entry. *)
Definition unrecorded_readmissions : DataFrame :=
  [ ("Department", ObjectSeries [Some "ER"; Some "ER"; Some "ICU"]);
    ("Readmission", ObjectSeries [Some "Yes"; Some "No"; None]) ].

(** Two emergency patients and one intensive-care patient with their costs. *)
Definition er_icu_costs : DataFrame :=
  [ ("Department", ObjectSeries [Some "ER"; Some "ER"; Some "ICU"]);
    ("Cost", FloatSeries [Some 100%Q; Some 300%Q; Some 500%Q]) ].

(** Three emergency patients, one of them readmitted, and one intensive-care
    patient who is not. *)
Definition ward_readmissions : DataFrame :=
  [ ("Department", ObjectSeries [Some "ER"; Some "ER"; Some "ICU"; Some "ER"]);
    ("Readmission", ObjectSeries [Some "Yes"; Some "No"; Some "No"; Some "No"]) ].

(** Admissions over two months; one date did not parse and one patient
    identifier is missing. *)
Definition winter_admissions : DataFrame :=
  [ ("Patient_ID", ObjectSeries [Some "P1"; None; Some "P3"; Some "P4"; Some "P5"]);
    ("Admission_Date",
       DatetimeSeries [Some (timestamp 2024 1 10); Some (timestamp 2024 1 31);
                       Some (timestamp 2024 2 1); None;
                       Some (timestamp 2024 2 29 + 3600000000000)%Z]) ].

(** A table without date columns and without a length of stay. *)
Definition no_length_of_stay : DataFrame :=
  [ ("Patient_ID", ObjectSeries [Some "P1"; Some "P2"]);
    ("Department", ObjectSeries [Some "ER"; Some "ICU"]);
    ("Cost", FloatSeries [Some 100%Q; Some 500%Q]);
    ("Readmission", ObjectSeries [Some "No"; Some "Yes"]) ].

(** The same table with the length of stay. *)
Definition no_dates : DataFrame :=
  no_length_of_stay ++ [("Length_of_Stay", FloatSeries [Some 2%Q; Some 9%Q])].

(** A working directory whose data file holds a given table. *)
Definition disk_with (df : DataFrame) : FS :=
  mkFS {[ "data" ]} {[ "data/hospital_data.csv" := CsvFile df ]}.

(** A working directory without the data file. *)
Definition empty_disk : FS := mkFS ∅ ∅.

(** A working directory in which [reports] is a regular file. *)
Definition blocked_disk : FS := mkFS ∅ {[ "reports" := OtherFile ]}.

(** The coarsest parser: it recognises no entry, every cell becomes missing. *)
Definition parse_nothing (s : Series) : list (option Z) :=
  (fun _ => None) <$> isna s.

(** ** Notions used for the whole run *)

(** The computation ended without an exception, as a boolean. *)
Definition ok {A} (m : M A) : bool :=
  match outcome m with
  | inr _ => true
  | inl _ => false
  end.

(** The computation does not end by [sys.exit]. *)
Definition never_exits {A} (m : M A) : Prop :=
  forall code, outcome m <> inl (SystemExit code).

(** The figures a computation saved, in order. *)
Definition saved {A} (m : M A) : list string := saved_files (trace m).

(** The four figures every complete run saves, and the monthly one. *)
Definition core_figures : list string :=
  [ path_join FIG_DIR "admissions_by_department.png";
    path_join FIG_DIR "avg_cost_by_department.png";
    path_join FIG_DIR "readmission_yes_by_department.png";
    path_join FIG_DIR "length_of_stay_vs_cost.png" ].

Definition monthly_figure : string := path_join FIG_DIR "monthly_admissions.png".

Definition figure_files : list string := core_figures ++ [monthly_figure].

(** The guard of the monthly analyzer as a boolean: the admission dates
    exist and are not all missing. *)
Definition dates_usable (df : DataFrame) : bool :=
  match lookup_col "Admission_Date" df with
  | Some s => negb (all (isna s))
  | None => false
  end.

(** A row lacks one of its two dates. *)
Definition lacks_date (row : option Z * option Z) : Prop :=
  row.1 = None \/ row.2 = None.

Global Instance lacks_date_dec row : Decision (lacks_date row).
Proof. unfold lacks_date. apply _. Defined.


(** A working directory whose data file holds a given table, where an
    earlier run has left a figure. *)
Definition disk_after_run (df : DataFrame) : FS :=
  mkFS {[ "data"; "reports"; FIG_DIR ]}
       (<[ monthly_figure := OtherFile ]>
          {[ "data/hospital_data.csv" := CsvFile df ]}).

(** * Properties *)

(** ** Columns and computations *)

Lemma has_column_lookup col df :
  has_column col df = true <-> is_Some (lookup_col col df).
Proof.
  unfold has_column, columns. rewrite bool_decide_eq_true.
  induction df as [|[c s] df IH]; simpl.
  - split; [intros H; inversion H | intros [x Hx]; discriminate].
  - rewrite elem_of_cons, IH. destruct (decide (c = col)) as [->|Hne].
    + split; eauto.
    + split; [intros [->|H]; [congruence|done] | auto].
Qed.

Lemma has_column_false col df :
  has_column col df = false <-> lookup_col col df = None.
Proof.
  pose proof (has_column_lookup col df) as H.
  destruct (has_column col df), (lookup_col col df) as [s|]; split; intros E;
    try done.
  - destruct H as [H _]. destruct (H eq_refl); discriminate.
  - destruct H as [_ H]. discriminate H. eauto.
Qed.

Lemma lookup_setitem_eq col s df :
  lookup_col col (setitem col s df) = Some s.
Proof.
  induction df as [|[c s'] df IH]; simpl.
  - by rewrite decide_True.
  - destruct (decide (c = col)) as [->|Hne]; simpl.
    + by rewrite decide_True.
    + by rewrite decide_False.
Qed.

Lemma lookup_setitem_ne col col' s df :
  col <> col' -> lookup_col col' (setitem col s df) = lookup_col col' df.
Proof.
  intros Hne. induction df as [|[c s'] df IH]; simpl.
  - by rewrite decide_False.
  - destruct (decide (c = col)) as [->|Hc]; simpl.
    + by rewrite !decide_False.
    + by rewrite IH.
Qed.

Lemma getitem_some col df s :
  lookup_col col df = Some s -> getitem col df = ([], inr s).
Proof. unfold getitem. by intros ->. Qed.

Lemma getitem_none col df :
  lookup_col col df = None -> getitem col df = ([], inl (KeyError col)).
Proof. unfold getitem. by intros ->. Qed.

Lemma bind_ret {A B} (a : A) (k : A -> M B) : bind (ret a) k = k a.
Proof. unfold bind, ret. by destruct (k a). Qed.

Lemma bind_outcome {A B} (m : M A) (k : A -> M B) a :
  outcome m = inr a -> outcome (bind m k) = outcome (k a).
Proof.
  destruct m as [out [e'|a']]; simpl; [discriminate|]. intros [= ->].
  by destruct (k a).
Qed.

Lemma bind_raises {A B} (m : M A) (k : A -> M B) e :
  outcome m = inl e -> outcome (bind m k) = inl e.
Proof. destruct m as [out [e'|a]]; simpl; intros H; [by injection H as -> | discriminate]. Qed.

Lemma bind_trace_prefix {A B} (m : M A) (k : A -> M B) :
  exists rest, trace (bind m k) = trace m ++ rest.
Proof.
  destruct m as [out [e|a]]; simpl.
  - exists []. by rewrite app_nil_r.
  - destruct (k a) as [out' r]. by exists out'.
Qed.

Lemma bind_inr_inv {A B} (m : M A) (k : A -> M B) b :
  outcome (bind m k) = inr b ->
  exists a, outcome m = inr a /\ outcome (k a) = inr b.
Proof.
  destruct m as [out [e|a]]; simpl; [discriminate|].
  intros H. exists a. split; [done|]. by destruct (k a).
Qed.

Lemma trace_bind {A B} (m : M A) (k : A -> M B) a :
  outcome m = inr a -> trace (bind m k) = trace m ++ trace (k a).
Proof.
  destruct m as [out [e|a']]; simpl; [discriminate|]. intros [= ->].
  by destruct (k a).
Qed.

Lemma trace_bind_raises {A B} (m : M A) (k : A -> M B) e :
  outcome m = inl e -> trace (bind m k) = trace m.
Proof. destruct m as [out [e'|a]]; simpl; [done | discriminate]. Qed.

Lemma trace_bind_nil {A B} (m : M A) (k : A -> M B) :
  trace m = [] -> (forall a, trace (k a) = []) -> trace (bind m k) = [].
Proof.
  destruct m as [out [e|a]]; simpl; intros -> Hk; [done|].
  specialize (Hk a). destruct (k a). simpl in *. by subst.
Qed.

Lemma elem_trace_bind_l {A B} (m : M A) (k : A -> M B) ev :
  ev ∈ trace m -> ev ∈ trace (bind m k).
Proof.
  intros H. destruct (bind_trace_prefix m k) as [rest ->].
  apply elem_of_app. by left.
Qed.

Lemma elem_trace_bind_r {A B} (m : M A) (k : A -> M B) a ev :
  outcome m = inr a -> ev ∈ trace (k a) -> ev ∈ trace (bind m k).
Proof.
  intros Hm H. rewrite (trace_bind m k a Hm). apply elem_of_app. by right.
Qed.

Lemma run_eq {A} (m : M A) r : trace m = [] -> outcome m = r -> m = ([], r).
Proof. destruct m. simpl. by intros -> ->. Qed.

Lemma getitem_ret col df s :
  lookup_col col df = Some s -> getitem col df = ret s.
Proof. apply getitem_some. Qed.

Lemma raises_then {A B} (m : M A) (k : M B) :
  raises k -> raises (bind m (fun _ => k)).
Proof.
  intros [e He]. destruct m as [out [e'|a]]; simpl.
  - by exists e'.
  - destruct k as [out' r]. simpl in *. by exists e.
Qed.

Lemma raises_bind {A B} (m : M A) (k : A -> M B) :
  raises m -> raises (bind m k).
Proof. intros [e He]. exists e. by apply bind_raises. Qed.

Lemma raises_getitem {B} col df (k : Series -> M B) :
  lookup_col col df = None -> raises (bind (getitem col df) k).
Proof.
  intros H. apply raises_bind. exists (KeyError col). by rewrite (getitem_none _ _ H).
Qed.

(** ** The derived length of stay *)

Lemma clip_zero_days (d : Z) :
  clip_cell 0 (inject_Z d) = inject_Z (Z.max 0 d).
Proof.
  unfold clip_cell. destruct (Qlt_le_dec (inject_Z d) 0) as [Hlt|Hle].
  - assert (d < 0)%Z by (unfold Qlt, inject_Z in Hlt; simpl in Hlt; lia).
    by rewrite Z.max_l by lia.
  - assert (0 <= d)%Z by (unfold Qle, inject_Z in Hle; simpl in Hle; lia).
    by rewrite Z.max_r by lia.
Qed.

Lemma recomputed_los_lookup adm dis i a d :
  adm !! i = Some a -> dis !! i = Some d ->
  recomputed_los adm dis !! i = Some (clamped_days a d).
Proof.
  intros Ha Hd. unfold recomputed_los, clamped.
  rewrite !list_lookup_fmap, lookup_zip_with, Hd, Ha. simpl.
  destruct d as [td|], a as [ta|]; simpl; try done.
  by rewrite clip_zero_days.
Qed.

Lemma recomputed_los_length adm dis :
  length (recomputed_los adm dis) = min (length dis) (length adm).
Proof. unfold recomputed_los, clamped. by rewrite !length_fmap, length_zip_with. Qed.

(** *** The subtraction of line 163 *)

Lemma fits_stored c : fits c = true -> overflows c = false /\ stored_time c = c.
Proof.
  destruct c as [d|]; [|done].
  unfold fits, overflows, stored_time, int64_min, int64_max.
  rewrite andb_true_iff, Z.ltb_lt, Z.leb_le. intros [H1 H2]. split.
  - apply orb_false_iff. rewrite !Z.ltb_ge. lia.
  - destruct (Z.eqb_spec d (-9223372036854775808)); [lia | done].
Qed.

Lemma differences_fit_spec xs ys :
  differences_fit xs ys = true ->
  difference_overflows xs ys = false /\
  stored_time <$> zip_with sub_cell xs ys = zip_with sub_cell xs ys.
Proof.
  unfold differences_fit, difference_overflows.
  induction (zip_with sub_cell xs ys) as [|c l IH]; [done|].
  rewrite fmap_cons. cbn [forallb existsb]. rewrite andb_true_iff. intros [Hc Hl].
  destruct (fits_stored c Hc) as [-> ->], (IH Hl) as [-> ->]. done.
Qed.

(** The derivation in closed form, for parsed date columns. *)
Lemma derive_closed_form df adm dis :
  lookup_col "Admission_Date" df = Some (DatetimeSeries adm) ->
  lookup_col "Discharge_Date" df = Some (DatetimeSeries dis) ->
  derive_length_of_stay df =
    if difference_overflows dis adm then raise OverflowError
    else if los_incomplete df
         then ret (setitem "Length_of_Stay"
                     (FloatSeries (clamped (stored_time <$> zip_with sub_cell dis adm)))
                     df)
         else ret df.
Proof.
  intros Ha Hd. unfold derive_length_of_stay.
  assert (has_column "Admission_Date" df = true) as -> by (apply has_column_lookup; eauto).
  assert (has_column "Discharge_Date" df = true) as -> by (apply has_column_lookup; eauto).
  cbn [andb]. rewrite (getitem_ret _ _ _ Hd), bind_ret, (getitem_ret _ _ _ Ha), bind_ret.
  unfold series_sub, sub_times. destruct (difference_overflows dis adm); [reflexivity|].
  rewrite !bind_ret. unfold dt_days. rewrite bind_ret.
  unfold los_incomplete. destruct (lookup_col "Length_of_Stay" df) as [s|] eqn:Hs.
  - assert (has_column "Length_of_Stay" df = true) as ->
      by (apply has_column_lookup; eauto).
    cbn [negb]. rewrite (getitem_ret _ _ _ Hs), !bind_ret.
    destruct (any (isna s)); [|done]. unfold clip. by rewrite bind_ret.
  - assert (has_column "Length_of_Stay" df = false) as -> by (by apply has_column_false).
    cbn [negb]. rewrite bind_ret. unfold clip. by rewrite bind_ret.
Qed.

Lemma los_incomplete_spec df :
  los_incomplete df = true <->
  lookup_col "Length_of_Stay" df = None \/
  exists s, lookup_col "Length_of_Stay" df = Some s /\ any (isna s) = true.
Proof.
  unfold los_incomplete. destruct (lookup_col "Length_of_Stay" df) as [s|]; split.
  - intros H. right. eauto.
  - by intros [?|(s' & [= <-] & H)].
  - by left.
  - done.
Qed.

(** The branches of the derivation, for parsed date columns. *)
Lemma derive_replaces df adm dis :
  lookup_col "Admission_Date" df = Some (DatetimeSeries adm) ->
  lookup_col "Discharge_Date" df = Some (DatetimeSeries dis) ->
  differences_fit dis adm = true ->
  (lookup_col "Length_of_Stay" df = None \/
   exists s, lookup_col "Length_of_Stay" df = Some s /\ any (isna s) = true) ->
  derive_length_of_stay df =
    ([], inr (setitem "Length_of_Stay" (FloatSeries (recomputed_los adm dis)) df)).
Proof.
  intros Ha Hd Hfit Hs. rewrite (derive_closed_form df adm dis Ha Hd).
  destruct (differences_fit_spec dis adm Hfit) as [-> ->].
  apply los_incomplete_spec in Hs. by rewrite Hs.
Qed.

Lemma derive_keeps df adm dis s :
  lookup_col "Admission_Date" df = Some (DatetimeSeries adm) ->
  lookup_col "Discharge_Date" df = Some (DatetimeSeries dis) ->
  differences_fit dis adm = true ->
  lookup_col "Length_of_Stay" df = Some s -> any (isna s) = false ->
  derive_length_of_stay df = ([], inr df).
Proof.
  intros Ha Hd Hfit Hs Hany. rewrite (derive_closed_form df adm dis Ha Hd).
  destruct (differences_fit_spec dis adm Hfit) as [-> _].
  unfold los_incomplete. by rewrite Hs, Hany.
Qed.

Lemma derive_overflows df adm dis :
  lookup_col "Admission_Date" df = Some (DatetimeSeries adm) ->
  lookup_col "Discharge_Date" df = Some (DatetimeSeries dis) ->
  difference_overflows dis adm = true ->
  derive_length_of_stay df = ([], inl OverflowError).
Proof.
  intros Ha Hd Hover. by rewrite (derive_closed_form df adm dis Ha Hd), Hover.
Qed.

Lemma derive_skips df :
  lookup_col "Admission_Date" df = None \/ lookup_col "Discharge_Date" df = None ->
  derive_length_of_stay df = ([], inr df).
Proof.
  intros H. unfold derive_length_of_stay.
  destruct H as [H|H]; apply has_column_false in H; rewrite H; simpl;
    [done | by rewrite andb_false_r].
Qed.

(** The literal statement fails on valid dates more than 292 years apart:
    the subtraction of line 163 overflows, and no table comes out of the
    derivation. *)
Lemma los_derivation_claimed_fails : ~ los_derivation_claimed centuries_apart.
Proof.
  intros H.
  destruct (H [Some (timestamp 1700 1 1)] [Some (timestamp 2200 1 1)]
              eq_refl eq_refl) as [Hrep _].
  destruct (Hrep (or_introl eq_refl)) as (df' & los & Hrun & _).
  vm_compute in Hrun. discriminate.
Qed.

Example derive_centuries_apart :
  derive_length_of_stay centuries_apart = ([], inl OverflowError).
Proof. by vm_compute. Qed.

(** C1 (amended). With both date columns present and every row's difference
    (discharge minus admission) within the 64-bit nanosecond range: when
    [Length_of_Stay] is absent or has a missing value, the derivation
    returns and every row's [Length_of_Stay] is that row's whole-day
    difference clamped below at zero; when the column is present and fully
    populated, the table is left unchanged. When some row's difference
    overflows, the derivation raises [OverflowError] in both cases. *)
Theorem derive_length_of_stay_recomputes_or_keeps
    (df : DataFrame) (adm dis : list (option Z)) :
  lookup_col "Admission_Date" df = Some (DatetimeSeries adm) ->
  lookup_col "Discharge_Date" df = Some (DatetimeSeries dis) ->
  (differences_fit dis adm = true ->
   ((lookup_col "Length_of_Stay" df = None \/
     exists s, lookup_col "Length_of_Stay" df = Some s /\ any (isna s) = true) ->
    exists df' los,
      derive_length_of_stay df = ([], inr df') /\
      lookup_col "Length_of_Stay" df' = Some (FloatSeries los) /\
      length los = min (length dis) (length adm) /\
      forall i a d, adm !! i = Some a -> dis !! i = Some d ->
        los !! i = Some (clamped_days a d))
   /\
   (forall s, lookup_col "Length_of_Stay" df = Some s -> any (isna s) = false ->
      derive_length_of_stay df = ([], inr df)))
  /\
  (difference_overflows dis adm = true ->
   derive_length_of_stay df = ([], inl OverflowError)).
Proof.
  intros Ha Hd. split; [intros Hfit; split|].
  - intros Hs. eexists _, _. split; [by apply (derive_replaces df adm dis)|].
    split; [apply lookup_setitem_eq|].
    split; [apply recomputed_los_length|].
    intros i a d. apply recomputed_los_lookup.
  - intros s Hs Hany. by apply (derive_keeps df adm dis s).
  - by apply derive_overflows.
Qed.

Example derive_inverted_dates :
  derive_length_of_stay inverted_dates =
    ([], inr (inverted_dates ++
              [("Length_of_Stay", FloatSeries [Some 0%Q; Some 4%Q; None])])).
Proof. reflexivity. Qed.

Lemma derive_length_of_stay_recomputes_or_keeps_witness :
  (exists df' los,
     derive_length_of_stay partial_stays = ([], inr df') /\
     lookup_col "Length_of_Stay" df' = Some (FloatSeries los) /\
     length los = 2 /\
     forall i a d,
       [None; Some (timestamp 2024 1 10)] !! i = Some a ->
       [Some (timestamp 2024 1 12); Some (timestamp 2024 1 17)] !! i = Some d ->
       los !! i = Some (clamped_days a d)) /\
  derive_length_of_stay centuries_apart = ([], inl OverflowError).
Proof.
  split.
  - apply (derive_length_of_stay_recomputes_or_keeps partial_stays
             [None; Some (timestamp 2024 1 10)]
             [Some (timestamp 2024 1 12); Some (timestamp 2024 1 17)]).
    + reflexivity.
    + reflexivity.
    + reflexivity.
    + right. exists (FloatSeries [Some 5%Q; None]). split; reflexivity.
  - apply (derive_length_of_stay_recomputes_or_keeps centuries_apart
             [Some (timestamp 1700 1 1)] [Some (timestamp 2200 1 1)]);
      reflexivity.
Defined.

(** *** The invariant on the length of stay *)

(** The literal invariant fails: the value 5 of the row without admission
    date is overwritten by a missing value when another row lacks its
    length of stay. *)
Lemma los_invariant_claimed_fails : ~ los_invariant_claimed partial_stays.
Proof.
  intros H.
  destruct (H [None; Some (timestamp 2024 1 10)]
              [Some (timestamp 2024 1 12); Some (timestamp 2024 1 17)]
              _ eq_refl eq_refl eq_refl) as [_ Hkeep].
  specialize (Hkeep 0%nat (or_introl eq_refl)).
  vm_compute in Hkeep. discriminate.
Qed.

(** It also fails on a fully populated column: the negative entry stays. *)
Example negative_stay_is_kept : ~ los_invariant_claimed negative_stays.
Proof.
  intros H.
  destruct (H [Some (timestamp 2024 1 10)] [Some (timestamp 2024 1 12)]
              _ eq_refl eq_refl eq_refl) as [Hpos _].
  destruct (Hpos 0%nat _ _ eq_refl eq_refl) as (q & Hq & Hle).
  vm_compute in Hq. injection Hq as <-. vm_compute in Hle. by apply Hle.
Qed.

Lemma clamped_days_nonneg ta td q :
  clamped_days (Some ta) (Some td) = Some q -> (0 <= q)%Q.
Proof.
  intros [= <-]. unfold Qle, inject_Z. simpl. lia.
Qed.

(** C2 (amended). With both date columns present and every row's difference
    within the 64-bit nanosecond range: when [Length_of_Stay] is replaced
    (the column absent or with a missing value), the new value is
    non-negative on every row with both dates and missing on every row with
    a missing date, whatever the row held before; when the column is fully
    populated, the table, and so every row's value, is unchanged. When a
    date column is absent the table is unchanged as well. *)
Theorem derive_length_of_stay_invariant (df : DataFrame) :
  (forall adm dis,
     lookup_col "Admission_Date" df = Some (DatetimeSeries adm) ->
     lookup_col "Discharge_Date" df = Some (DatetimeSeries dis) ->
     differences_fit dis adm = true ->
     ((lookup_col "Length_of_Stay" df = None \/
       exists s, lookup_col "Length_of_Stay" df = Some s /\ any (isna s) = true) ->
      exists los,
        derive_length_of_stay df =
          ([], inr (setitem "Length_of_Stay" (FloatSeries los) df)) /\
        (forall i ta td, adm !! i = Some (Some ta) -> dis !! i = Some (Some td) ->
           exists q, los !! i = Some (Some q) /\ (0 <= q)%Q) /\
        (forall i a d, adm !! i = Some a -> dis !! i = Some d ->
           a = None \/ d = None -> los !! i = Some None))
     /\
     ((exists s, lookup_col "Length_of_Stay" df = Some s /\ any (isna s) = false) ->
      derive_length_of_stay df = ([], inr df)))
  /\
  (lookup_col "Admission_Date" df = None \/ lookup_col "Discharge_Date" df = None ->
   derive_length_of_stay df = ([], inr df)).
Proof.
  split; [|apply derive_skips].
  intros adm dis Ha Hd Hfit. split.
  - intros Hs. exists (recomputed_los adm dis).
    split; [by apply derive_replaces|]. split.
    + intros i ta td Hi Hj.
      rewrite (recomputed_los_lookup _ _ _ _ _ Hi Hj).
      eexists. split; [reflexivity|]. by eapply clamped_days_nonneg.
    + intros i a d Hi Hj Hnone.
      rewrite (recomputed_los_lookup _ _ _ _ _ Hi Hj).
      destruct Hnone as [-> | ->]; [done | by destruct a].
  - intros (s & Hs & Hany). by apply (derive_keeps df adm dis s).
Qed.

Lemma derive_length_of_stay_invariant_witness :
  (exists los,
     derive_length_of_stay partial_stays =
       ([], inr (setitem "Length_of_Stay" (FloatSeries los) partial_stays)) /\
     los = [None; Some 7%Q]) /\
  derive_length_of_stay negative_stays = ([], inr negative_stays) /\
  derive_length_of_stay no_dates = ([], inr no_dates).
Proof.
  split; [|split].
  - destruct (proj1 (derive_length_of_stay_invariant partial_stays)
                [None; Some (timestamp 2024 1 10)]
                [Some (timestamp 2024 1 12); Some (timestamp 2024 1 17)]
                eq_refl eq_refl eq_refl) as [Hrep _].
    destruct (Hrep (or_intror (ex_intro _ (FloatSeries [Some 5%Q; None])
                                 (conj eq_refl eq_refl))))
      as (los & Hrun & _).
    exists los. split; [exact Hrun|].
    vm_compute in Hrun. by injection Hrun as <-.
  - apply (proj1 (derive_length_of_stay_invariant negative_stays)
             [Some (timestamp 2024 1 10)] [Some (timestamp 2024 1 12)]
             eq_refl eq_refl eq_refl).
    exists (FloatSeries [Some (-3)%Q]). split; reflexivity.
  - apply (proj2 (derive_length_of_stay_invariant no_dates)). by left.
Defined.

Lemma clip_inr_inv lower s cl :
  outcome (clip lower s) = inr cl -> exists xs, cl = FloatSeries xs.
Proof. destruct s; simpl; intros [= <-]; eauto. Qed.

(** What a derivation that returns has done. *)
Lemma derive_inv df df' :
  outcome (derive_length_of_stay df) = inr df' ->
  df' = df \/ exists xs, df' = setitem "Length_of_Stay" (FloatSeries xs) df.
Proof.
  unfold derive_length_of_stay. destruct (_ && _); [|intros [= <-]; by left].
  intros Hrun.
  apply bind_inr_inv in Hrun as (dis & _ & Hrun).
  apply bind_inr_inv in Hrun as (adm & _ & Hrun).
  apply bind_inr_inv in Hrun as (delta & _ & Hrun).
  apply bind_inr_inv in Hrun as (calc & _ & Hrun).
  apply bind_inr_inv in Hrun as ([|] & _ & Hrun).
  - apply bind_inr_inv in Hrun as (cl & Hcl & Hrun). right.
    apply clip_inr_inv in Hcl as [xs ->]. exists xs.
    simpl in Hrun. by injection Hrun as <-.
  - left. simpl in Hrun. by injection Hrun as <-.
Qed.

(** ** Group keys *)

Lemma elem_of_unique k ks : k ∈ unique ks <-> Some k ∈ ks.
Proof.
  unfold unique. rewrite merge_sort_Permutation, elem_of_remove_dups, list_elem_of_omap.
  split.
  - intros (x & Hx & Hk). simpl in Hk. by subst.
  - intros H. by exists (Some k).
Qed.

Lemma NoDup_unique ks : NoDup (unique ks).
Proof.
  unfold unique. rewrite merge_sort_Permutation. apply NoDup_remove_dups.
Qed.

Lemma group_rows_key {A} (x : A) k ks xs : x ∈ group_rows k ks xs -> Some k ∈ ks.
Proof.
  unfold group_rows. intros H. apply list_elem_of_fmap in H as ([k' x'] & -> & H).
  apply list_elem_of_filter in H as [Hk H]. simpl in Hk. subst.
  by apply elem_of_zip_l in H.
Qed.

(** ** The per-department readmission table *)

Lemma lookup_tcol_fmap (g : list (option Q) -> list (option Q)) c cs :
  lookup_tcol c ((fun x => (x.1, g x.2)) <$> cs) = g <$> lookup_tcol c cs.
Proof.
  induction cs as [|[c0 cells] cs IH]; simpl; [done|].
  destruct (decide (c0 = c)); [done | exact IH].
Qed.

Lemma lookup_tcol_tabulate (f : label -> list (option Q)) c cols :
  lookup_tcol c ((fun c => (c, f c)) <$> cols) =
    if decide (c ∈ cols) then Some (f c) else None.
Proof.
  induction cols as [|c0 cols IH].
  - simpl. destruct (decide (c ∈ [])) as [H|]; [inversion H | done].
  - rewrite fmap_cons. cbn [lookup_tcol].
    destruct (decide (c0 = c)) as [->|Hne].
    + by rewrite decide_True by (by left).
    + rewrite IH. destruct (decide (c ∈ cols)) as [Hin|Hnin].
      * by rewrite decide_True by (by right).
      * rewrite decide_False; [done|].
        intros [->|?]%elem_of_cons; done.
Qed.

Lemma lookup_tcol_is_Some c cs : is_Some (lookup_tcol c cs) <-> c ∈ cs.*1.
Proof.
  induction cs as [|[c0 cells] cs IH]; simpl.
  - split; [intros [? ?]; discriminate | intros H; inversion H].
  - rewrite elem_of_cons. destruct (decide (c0 = c)) as [->|Hne].
    + split; eauto.
    + rewrite IH. split; [auto | intros [->|?]; done].
Qed.

Lemma lookup_set_column_eq c cells cs :
  lookup_tcol c (set_column c cells cs) = Some cells.
Proof.
  induction cs as [|[c0 old] cs IH]; simpl.
  - by rewrite decide_True.
  - destruct (decide (c0 = c)) as [->|Hne]; simpl.
    + by rewrite decide_True.
    + by rewrite decide_False.
Qed.

Lemma lookup_set_column_ne c c' cells cs :
  c <> c' -> lookup_tcol c' (set_column c cells cs) = lookup_tcol c' cs.
Proof.
  intros Hne. induction cs as [|[c0 old] cs IH]; simpl.
  - by rewrite decide_False.
  - destruct (decide (c0 = c)) as [->|Hc]; simpl.
    + by rewrite !decide_False.
    + by rewrite IH.
Qed.

Lemma ensure_column_index t col : index (ensure_column t col) = index t.
Proof. unfold ensure_column. by destruct (table_has_column col t). Qed.

Lemma ensure_column_lookup_eq t col :
  lookup_tcol (LStr col) (tcolumns (ensure_column t col)) =
    Some (default (replicate (length (index t)) (Some 0%Q))
                  (lookup_tcol (LStr col) (tcolumns t))).
Proof.
  unfold ensure_column, table_has_column.
  destruct (bool_decide (LStr col ∈ (tcolumns t).*1)) eqn:Hb.
  - apply bool_decide_eq_true in Hb. apply lookup_tcol_is_Some in Hb as [cells ->].
    done.
  - apply bool_decide_eq_false in Hb.
    destruct (lookup_tcol (LStr col) (tcolumns t)) as [cells|] eqn:Hl.
    + exfalso. apply Hb, lookup_tcol_is_Some. eauto.
    + simpl. apply lookup_set_column_eq.
Qed.

Lemma ensure_column_lookup_ne t col col' :
  col <> col' ->
  lookup_tcol (LStr col') (tcolumns (ensure_column t col)) =
    lookup_tcol (LStr col') (tcolumns t).
Proof.
  intros Hne. unfold ensure_column. destruct (table_has_column col t); [done|].
  simpl. apply lookup_set_column_ne. congruence.
Qed.

Lemma pivot_cell_Some d c recs q :
  pivot_cell d c recs = Some q -> (d, c, q) ∈ recs.
Proof.
  unfold pivot_cell. intros H. apply fmap_Some in H as ([i [[d' c'] q']] & Hf & ->).
  apply list_find_Some in Hf as (Hi & Hk & _). simpl in Hk. injection Hk as -> ->.
  simpl. by eapply list_elem_of_lookup_2.
Qed.

Lemma pivot_cell_None d c recs :
  pivot_cell d c recs = None <-> forall q, (d, c, q) ∉ recs.
Proof.
  unfold pivot_cell. rewrite fmap_None, list_find_None, Forall_forall. split.
  - intros H q Hin. by apply (H _ Hin).
  - intros H [[d' c'] q'] Hin Hk. simpl in Hk. injection Hk as -> ->.
    by apply (H q').
Qed.

(** The columns of the rounded, filled pivot table. *)
Lemma pivot_column recs c :
  lookup_tcol (LStr c) (tcolumns (table_round 1 (fillna 0 (pivot recs)))) =
    if decide (LStr c ∈ unique ((fun x => Some x.1.2) <$> recs))
    then Some (pct_cell recs c <$> unique ((fun x => Some x.1.1) <$> recs))
    else None.
Proof.
  unfold table_round, fillna, table_map, pivot. simpl.
  rewrite !(lookup_tcol_fmap (fmap _)), lookup_tcol_tabulate.
  destruct (decide _); [|done]. simpl. f_equal.
  rewrite <- !list_fmap_compose. apply list_fmap_ext. intros i d _. simpl.
  unfold pct_cell. by destruct (pivot_cell d (LStr c) recs).
Qed.

Lemma pivot_absent_column recs c :
  LStr c ∉ unique ((fun x => Some x.1.2) <$> recs) ->
  replicate (length (unique ((fun x => Some x.1.1) <$> recs))) (Some 0%Q) =
    pct_cell recs c <$> unique ((fun x => Some x.1.1) <$> recs).
Proof.
  intros Hc. symmetry. apply const_fmap. intros _ d _. unfold pct_cell.
  assert (pivot_cell d (LStr c) recs = None) as ->; [|done].
  apply pivot_cell_None. intros q Hin. apply Hc, elem_of_unique.
  apply list_elem_of_fmap. by exists (d, LStr c, q).
Qed.

(** The table of lines 103-115 in closed form. *)
Lemma by_dept_closed_form df dept readm :
  lookup_col "Department" df = Some dept ->
  lookup_col "Readmission" df = Some readm ->
  let recs := dept_readmission_pct dept readm in
  let idx := unique ((fun x => Some x.1.1) <$> recs) in
  by_dept df =
    ret (mkTable idx [ (LStr "No", pct_cell recs "No" <$> idx);
                       (LStr "Yes", pct_cell recs "Yes" <$> idx) ]).
Proof.
  intros Hd Hr recs idx. unfold by_dept.
  rewrite (getitem_ret _ _ _ Hd), bind_ret, (getitem_ret _ _ _ Hr), bind_ret.
  fold recs. set (t := table_round 1 (fillna 0 (pivot recs))).
  change (ensure_columns ["No"; "Yes"] t)
    with (ensure_column (ensure_column t "No") "Yes").
  assert (index t = idx) as Hidx by reflexivity.
  assert (forall c, lookup_tcol (LStr c) (tcolumns (ensure_column t c)) =
                    Some (pct_cell recs c <$> idx)) as Hcol.
  { intros c. rewrite ensure_column_lookup_eq. unfold t at 2.
    rewrite pivot_column. fold idx. destruct (decide _) as [|Hn]; [done|].
    simpl. f_equal. by apply pivot_absent_column. }
  unfold table_select, table_select_columns, table_getitem.
  rewrite (ensure_column_lookup_ne _ "Yes" "No") by done.
  rewrite Hcol, bind_ret.
  rewrite ensure_column_lookup_eq, (ensure_column_lookup_ne _ "No" "Yes") by done.
  unfold t at 2. rewrite pivot_column. fold idx.
  rewrite !ensure_column_index, Hidx.
  destruct (decide _) as [|Hn]; simpl; [done|].
  unfold idx at 3. by rewrite (pivot_absent_column recs "Yes" Hn).
Qed.

Lemma count_label_pos c g : Some c ∈ g <-> 0 < count_label c g.
Proof.
  unfold count_label. split.
  - intros Hin.
    assert (Some c ∈ filter (fun x => x = Some c) g) as Hf
      by (by apply list_elem_of_filter).
    destruct (filter _ g); [inversion Hf | simpl; lia].
  - intros Hpos. destruct (filter (fun x => x = Some c) g) as [|x l] eqn:Hf;
      [simpl in Hpos; lia|].
    assert (x ∈ filter (fun x => x = Some c) g) as Hx by (rewrite Hf; by left).
    apply list_elem_of_filter in Hx as [-> Hx]. done.
Qed.

Lemma elem_of_value_counts v n g :
  (v, n) ∈ value_counts g <-> Some v ∈ g /\ n = count_label v g.
Proof.
  unfold value_counts. rewrite merge_sort_Permutation, list_elem_of_fmap.
  split.
  - intros (v' & [= -> ->] & Hin). by apply elem_of_unique in Hin.
  - intros [Hin ->]. exists v. by rewrite elem_of_unique.
Qed.

Lemma elem_of_value_counts_normalized v q g :
  (v, q) ∈ value_counts_normalized g <->
  Some v ∈ g /\ q = (of_nat (count_label v g) / of_nat (group_total g))%Q.
Proof.
  unfold value_counts_normalized. rewrite list_elem_of_fmap. split.
  - intros ([v' n] & [= -> ->] & Hin). simpl.
    apply elem_of_value_counts in Hin as [Hin ->]. done.
  - intros [Hin ->]. exists (v, count_label v g). split; [done|].
    by apply elem_of_value_counts.
Qed.

(** The records behind the table: one per department and category present. *)
Lemma elem_of_dept_readmission_pct d c q dept readm :
  (d, c, q) ∈ dept_readmission_pct dept readm <->
  Some d ∈ labels dept /\
  Some c ∈ group_rows d (labels dept) (labels readm) /\
  q = (of_nat (count_label c (group_rows d (labels dept) (labels readm)))
       / of_nat (group_total (group_rows d (labels dept) (labels readm))) * 100)%Q.
Proof.
  unfold dept_readmission_pct. rewrite list_elem_of_bind. split.
  - intros (d' & Hin & Hd'). apply list_elem_of_fmap in Hin as ([c' q'] & [= -> -> ->] & Hin).
    simpl. apply elem_of_value_counts_normalized in Hin as [Hc ->].
    by rewrite <- elem_of_unique.
  - intros (Hd & Hc & ->). exists d. split; [|by apply elem_of_unique].
    apply list_elem_of_fmap.
    eexists (c, _). split; [reflexivity|].
    by apply elem_of_value_counts_normalized.
Qed.

Lemma pct_cell_absent dept readm c d :
  count_label (LStr c) (group_rows d (labels dept) (labels readm)) = 0 ->
  pct_cell (dept_readmission_pct dept readm) c d = Some 0%Q.
Proof.
  intros H0. unfold pct_cell.
  assert (pivot_cell d (LStr c) (dept_readmission_pct dept readm) = None) as ->;
    [|done].
  apply pivot_cell_None. intros q Hin.
  apply elem_of_dept_readmission_pct in Hin as (_ & Hc & _).
  apply count_label_pos in Hc. lia.
Qed.

Lemma index_department dept readm d :
  d ∈ unique ((fun x => Some x.1.1) <$> dept_readmission_pct dept readm) ->
  Some d ∈ labels dept /\
  0 < length (omap id (group_rows d (labels dept) (labels readm))).
Proof.
  intros Hin. apply elem_of_unique, list_elem_of_fmap in Hin
    as ([[d' c] q] & [= <-] & Hin).
  apply elem_of_dept_readmission_pct in Hin as (Hd & Hc & _).
  split; [done|].
  assert (c ∈ omap id (group_rows d (labels dept) (labels readm))) as Hc'.
  { apply list_elem_of_omap. by exists (Some c). }
  destruct (omap id _); [inversion Hc' | simpl; lia].
Qed.

Lemma readmission_rates_prints df readm t :
  lookup_col "Readmission" df = Some readm -> by_dept df = ret t ->
  PrintTable t ∈ trace (readmission_rates df).
Proof.
  intros Hr Hrun. unfold readmission_rates.
  eapply elem_trace_bind_r; [reflexivity|].
  rewrite (getitem_ret _ _ _ Hr), bind_ret.
  do 3 (eapply elem_trace_bind_r; [reflexivity|]).
  rewrite Hrun, bind_ret. apply elem_trace_bind_l. by left.
Qed.

(** The rows of the table: the departments with a readmission entry. *)
Lemma by_dept_index dept readm d :
  d ∈ unique ((fun x => Some x.1.1) <$> dept_readmission_pct dept readm) <->
  exists c, Some c ∈ group_rows d (labels dept) (labels readm).
Proof.
  split.
  - intros Hin. destruct (index_department dept readm d Hin) as [_ Hpos].
    destruct (omap id (group_rows d (labels dept) (labels readm)))
      as [|c l] eqn:Hg; [simpl in Hpos; lia|].
    exists c. assert (c ∈ c :: l) as Hc by (by left). rewrite <- Hg in Hc.
    apply list_elem_of_omap in Hc as (x & Hx & Hid). simpl in Hid. by subst.
  - intros [c Hc]. apply elem_of_unique, list_elem_of_fmap.
    eexists (d, c, _). split; [reflexivity|].
    apply elem_of_dept_readmission_pct.
    split; [by eapply group_rows_key|]. split; [done | reflexivity].
Qed.

(** The literal statement fails for a department whose readmission entries
    are all missing: it has no row in the table, so neither category is
    reported for it. *)
Lemma both_categories_claimed_fails : ~ both_categories_claimed unrecorded_readmissions.
Proof.
  intros H.
  destruct (H (ObjectSeries [Some "ER"; Some "ER"; Some "ICU"])
              (ObjectSeries [Some "Yes"; Some "No"; None])
              _ eq_refl eq_refl eq_refl) as [_ Hrows].
  destruct (Hrows (LStr "ICU") "Yes") as (i & cells & Hi & _).
  - simpl. do 2 right. by left.
  - by right.
  - reflexivity.
  - vm_compute in Hi. destruct i as [|[|i]]; discriminate.
Qed.

Example by_dept_unrecorded_readmissions :
  by_dept unrecorded_readmissions =
    ([], inr (mkTable [LStr "ER"]
                [ (LStr "No", [Some 50%Q]); (LStr "Yes", [Some 50%Q]) ])).
Proof. reflexivity. Qed.

(** C7 (amended). The per-department table, which the readmission analyzer
    prints, has exactly the columns "No" and "Yes", in that order. Its rows
    are the departments with at least one non-missing [Readmission] value; a
    department without any is left out. Every row has a value in both
    columns, and the value is 0.0 when the category does not occur in that
    department. *)
Theorem by_dept_reports_both_categories (df : DataFrame) (dept readm : Series) :
  lookup_col "Department" df = Some dept ->
  lookup_col "Readmission" df = Some readm ->
  exists t,
    by_dept df = ([], inr t) /\
    PrintTable t ∈ trace (readmission_rates df) /\
    (tcolumns t).*1 = [LStr "No"; LStr "Yes"] /\
    (forall d, d ∈ index t <->
       exists c, Some c ∈ group_rows d (labels dept) (labels readm)) /\
    forall col cells, (col, cells) ∈ tcolumns t ->
      exists c, col = LStr c /\
      length cells = length (index t) /\
      forall i d, index t !! i = Some d ->
        (exists q, cells !! i = Some (Some q)) /\
        (count_label (LStr c) (group_rows d (labels dept) (labels readm)) = 0 ->
         cells !! i = Some (Some 0%Q)).
Proof.
  intros Hd Hr. eexists. split; [by apply by_dept_closed_form|].
  split; [eapply readmission_rates_prints; [done | by apply by_dept_closed_form]|].
  split; [done|]. cbn [index tcolumns].
  split; [apply by_dept_index|].
  set (recs := dept_readmission_pct dept readm).
  assert (forall c cells i d,
            cells = pct_cell recs c <$> unique ((fun x => Some x.1.1) <$> recs) ->
            unique ((fun x => Some x.1.1) <$> recs) !! i = Some d ->
            (exists q, cells !! i = Some (Some q)) /\
            (count_label (LStr c) (group_rows d (labels dept) (labels readm)) = 0 ->
             cells !! i = Some (Some 0%Q))) as Hcell.
  { intros c cells i d -> Hi. rewrite list_lookup_fmap, Hi. simpl. split.
    - eexists. reflexivity.
    - intros H0. f_equal. by apply pct_cell_absent. }
  intros col cells Hin.
  apply elem_of_cons in Hin as [[= -> ->]|Hin];
    [|apply elem_of_cons in Hin as [[= -> ->]|Hin]; [|inversion Hin]].
  - exists "No". split; [done|]. split; [by rewrite length_fmap|].
    intros i d. by apply Hcell.
  - exists "Yes". split; [done|]. split; [by rewrite length_fmap|].
    intros i d. by apply Hcell.
Qed.

Example by_dept_ward_readmissions :
  by_dept ward_readmissions =
    ([], inr (mkTable [LStr "ER"; LStr "ICU"]
                [ (LStr "No", [Some (667 # 10)%Q; Some 100%Q]);
                  (LStr "Yes", [Some (333 # 10)%Q; Some 0%Q]) ])).
Proof. reflexivity. Qed.

Lemma by_dept_reports_both_categories_witness :
  exists t,
    by_dept ward_readmissions = ([], inr t) /\
    PrintTable t ∈ trace (readmission_rates ward_readmissions) /\
    (tcolumns t).*1 = [LStr "No"; LStr "Yes"] /\
    (forall d, d ∈ index t <->
       exists c,
         Some c ∈ group_rows d
           (labels (ObjectSeries [Some "ER"; Some "ER"; Some "ICU"; Some "ER"]))
           (labels (ObjectSeries [Some "Yes"; Some "No"; Some "No"; Some "No"]))) /\
    forall col cells, (col, cells) ∈ tcolumns t ->
      exists c, col = LStr c /\
      length cells = length (index t) /\
      forall i d, index t !! i = Some d ->
        (exists q, cells !! i = Some (Some q)) /\
        (count_label (LStr c)
           (group_rows d
              (labels (ObjectSeries [Some "ER"; Some "ER"; Some "ICU"; Some "ER"]))
              (labels (ObjectSeries [Some "Yes"; Some "No"; Some "No"; Some "No"])))
         = 0 ->
         cells !! i = Some (Some 0%Q)).
Proof.
  apply (by_dept_reports_both_categories ward_readmissions
           (ObjectSeries [Some "ER"; Some "ER"; Some "ICU"; Some "ER"])
           (ObjectSeries [Some "Yes"; Some "No"; Some "No"; Some "No"]));
    reflexivity.
Defined.

(** ** Rounding *)

Global Instance round_half_even_proper : Proper (Qeq ==> eq) round_half_even.
Proof.
  intros x y Hxy. unfold round_half_even.
  rewrite (Qfloor_comp x y Hxy).
  assert (x - inject_Z (Qfloor y) == y - inject_Z (Qfloor y))%Q as He
    by (by rewrite Hxy).
  by rewrite (Qcompare_comp _ _ He (1 # 2) (1 # 2) (Qeq_refl _)).
Qed.

Global Instance round_to_proper digits : Proper (Qeq ==> eq) (round_to digits).
Proof.
  intros x y Hxy. unfold round_to.
  assert (x * inject_Z (Z.pos (pow10 digits)) == y * inject_Z (Z.pos (pow10 digits)))%Q
    as He by (by rewrite Hxy).
  by rewrite (round_half_even_proper _ _ He).
Qed.

Lemma round_half_even_bounds x :
  (Qfloor x <= round_half_even x <= Qfloor x + 1)%Z.
Proof.
  unfold round_half_even.
  destruct (x - inject_Z (Qfloor x) ?= 1 # 2)%Q; [destruct (Z.even _)| |]; lia.
Qed.

Lemma round_half_even_mono x y :
  (x <= y)%Q -> (round_half_even x <= round_half_even y)%Z.
Proof.
  intros Hxy. pose proof (Qfloor_resp_le _ _ Hxy) as Hf.
  pose proof (round_half_even_bounds x) as Hx.
  pose proof (round_half_even_bounds y) as Hy.
  destruct (decide (Qfloor x = Qfloor y)) as [Heq|Hne]; [|lia].
  clear Hx Hy Hf. unfold round_half_even. rewrite Heq.
  destruct (Qcompare_spec (x - inject_Z (Qfloor y)) (1 # 2)) as [Hx|Hx|Hx];
    destruct (Qcompare_spec (y - inject_Z (Qfloor y)) (1 # 2)) as [Hy|Hy|Hy];
    try destruct (Z.even (Qfloor y)); try lia; exfalso; lra.
Qed.

Lemma round_to_mono digits x y :
  (x <= y)%Q -> (round_to digits x <= round_to digits y)%Q.
Proof.
  intros Hxy. unfold round_to. rewrite !Qred_correct.
  assert (x * inject_Z (Z.pos (pow10 digits)) <= y * inject_Z (Z.pos (pow10 digits)))%Q
    as Hs by (apply Qmult_le_compat_r; [done | by unfold Qle]).
  apply round_half_even_mono in Hs. unfold Qle. cbn [Qnum Qden].
  apply Z.mul_le_mono_nonneg_r; [lia | exact Hs].
Qed.

(** ** Counting within a group *)

Lemma sum_list_with_zero {A} (us : list A) : sum_list_with (fun _ => 0) us = 0.
Proof. induction us; simpl; lia. Qed.

Lemma sum_list_with_plus {A} (f g : A -> nat) us :
  sum_list_with (fun v => f v + g v) us = sum_list_with f us + sum_list_with g us.
Proof. induction us; simpl; lia. Qed.

Lemma sum_list_with_ext {A} (f g : A -> nat) us :
  (forall v, f v = g v) -> sum_list_with f us = sum_list_with g us.
Proof. intros H. induction us; simpl; [done|]. by rewrite H, IHus. Qed.

Lemma sum_list_fmap {A} (f : A -> nat) us :
  sum_list (f <$> us) = sum_list_with f us.
Proof.
  induction us as [|u us IH]; [done|].
  change (id (f u) + sum_list (f <$> us) = f u + sum_list_with f us).
  by rewrite IH.
Qed.

Lemma sum_indicator (us : list label) x :
  NoDup us -> x ∈ us ->
  sum_list_with (fun v => if decide (x = v) then 1 else 0) us = 1.
Proof.
  induction 1 as [|u us Hnin Hnd IH]; intros Hin; [inversion Hin|].
  simpl. destruct (decide (x = u)) as [->|Hne].
  - assert (sum_list_with (fun v => if decide (u = v) then 1 else 0) us = 0) as ->;
      [|done].
    clear IH Hin Hnd. induction us as [|w us IH]; simpl; [done|].
    rewrite decide_False by (intros ->; apply Hnin; by left).
    rewrite IH; [done|]. intros H. apply Hnin. by right.
  - apply elem_of_cons in Hin as [->|Hin]; [done|]. by rewrite IH.
Qed.

Lemma count_label_cons_Some v x g :
  count_label v (Some x :: g) = (if decide (x = v) then 1 else 0) + count_label v g.
Proof.
  unfold count_label. rewrite filter_cons.
  destruct (decide (x = v)) as [->|Hne].
  - by rewrite decide_True.
  - rewrite decide_False; [done|]. congruence.
Qed.

Lemma count_label_cons_None v g : count_label v (None :: g) = count_label v g.
Proof. unfold count_label. by rewrite filter_cons, decide_False. Qed.

Lemma sum_counts_covering (us : list label) (g : list (option label)) :
  NoDup us -> (forall v, Some v ∈ g -> v ∈ us) ->
  sum_list_with (fun v => count_label v g) us = length (omap id g).
Proof.
  intros Hnd. induction g as [|[x|] g IH]; intros Hcov.
  - apply sum_list_with_zero.
  - rewrite (sum_list_with_ext _ _ _ (fun v => count_label_cons_Some v x g)).
    rewrite sum_list_with_plus, sum_indicator; [|done|apply Hcov; by left].
    simpl. rewrite IH; [done|]. intros v Hv. apply Hcov. by right.
  - rewrite (sum_list_with_ext _ _ _ (fun v => count_label_cons_None v g)).
    simpl. apply IH. intros v Hv. apply Hcov. by right.
Qed.

(** The divisor of [value_counts(normalize=True)] is the number of
    non-missing cells. *)
Lemma group_total_length g : group_total g = length (omap id g).
Proof.
  unfold group_total, value_counts. rewrite merge_sort_Permutation.
  rewrite <- list_fmap_compose, sum_list_fmap. simpl.
  apply sum_counts_covering; [apply NoDup_unique|].
  intros v. apply elem_of_unique.
Qed.

(** ** Percentages of the per-department table *)

(** Every cell is the rounded share of its category in its department. *)
Lemma pct_cell_value dept readm c d :
  Some d ∈ labels dept ->
  pct_cell (dept_readmission_pct dept readm) c d =
    Some (round_to 1
            (of_nat (count_label (LStr c) (group_rows d (labels dept) (labels readm)))
             / of_nat (group_total (group_rows d (labels dept) (labels readm)))
             * 100)).
Proof.
  intros Hd. unfold pct_cell. f_equal.
  destruct (pivot_cell d (LStr c) (dept_readmission_pct dept readm)) as [q|] eqn:Hp.
  - apply pivot_cell_Some, elem_of_dept_readmission_pct in Hp as (_ & _ & ->). done.
  - simpl. apply round_to_proper.
    destruct (count_label (LStr c) (group_rows d (labels dept) (labels readm)))
      as [|n] eqn:Hn.
    + unfold of_nat at 1. simpl. unfold Qdiv. ring.
    + exfalso. rewrite pivot_cell_None in Hp. eapply Hp.
      apply elem_of_dept_readmission_pct. split; [done|]. split; [|reflexivity].
      apply count_label_pos. lia.
Qed.

Global Instance entry_ge_total : Total entry_ge.
Proof.
  intros [a [p|]] [b [q|]]; unfold entry_ge; simpl; auto.
  rewrite !Qle_bool_iff. destruct (Qlt_le_dec p q); [right|left]; lra.
Qed.

(** ** Monthly admissions *)






(** *** The guard of the analyzer *)

Lemma all_false_iff bs : all bs = false <-> false ∈ bs.
Proof.
  unfold all. induction bs as [|b bs IH]; simpl.
  - split; [discriminate | intros H; inversion H].
  - rewrite elem_of_cons. destruct b; simpl.
    + rewrite IH. split; [auto | intros [?|?]; done].
    + split; auto.
Qed.

Lemma monthly_admissions_skips df :
  ~ has_admission_dates df -> monthly_admissions df = ([], inr tt).
Proof.
  intros Hno. unfold monthly_admissions.
  destruct (lookup_col "Admission_Date" df) as [s|] eqn:Hs.
  - assert (has_column "Admission_Date" df = true) as ->
      by (apply has_column_lookup; eauto).
    simpl negb. cbv iota. rewrite (getitem_ret _ _ _ Hs), !bind_ret.
    destruct (all (isna s)) eqn:Hall; [done|].
    exfalso. apply Hno. exists s. split; [done|]. by apply all_false_iff.
  - assert (has_column "Admission_Date" df = false) as ->
      by (by apply has_column_false).
    done.
Qed.

Lemma monthly_admissions_runs df :
  has_admission_dates df ->
  monthly_admissions df =
    (h1 "Monthly Admissions Trend" >>
     let* monthly := monthly df in
     emit (PrintSeries (counts_series monthly)) >>
     emit (Draw (LineChart "Monthly Admissions" (counts_series monthly))) >>
     emit (SaveFig (path_join FIG_DIR "monthly_admissions.png") 140) >>
     emit (PrintPath "[saved] " (path_join FIG_DIR "monthly_admissions.png"))).
Proof.
  intros (s & Hs & Hin). unfold monthly_admissions.
  assert (has_column "Admission_Date" df = true) as ->
    by (apply has_column_lookup; eauto).
  simpl negb. cbv iota. rewrite (getitem_ret _ _ _ Hs), !bind_ret.
  apply all_false_iff in Hin. by rewrite Hin.
Qed.

Lemma has_admission_dates_dec df :
  has_admission_dates df \/ ~ has_admission_dates df.
Proof.
  unfold has_admission_dates.
  destruct (lookup_col "Admission_Date" df) as [s|]; [|right; intros (? & ? & _); done].
  destruct (all (isna s)) eqn:Hall.
  - right. intros (s' & [= <-] & Hin). apply all_false_iff in Hin. congruence.
  - left. exists s. split; [done|]. by apply all_false_iff.
Qed.

(** C5. The monthly analyzer runs (it prints its section header first)
    exactly when the table has an [Admission_Date] column with a
    non-missing value; otherwise it prints nothing, saves no chart and
    returns. *)
Theorem monthly_admissions_runs_iff_dates (df : DataFrame) :
  (has_admission_dates df <->
   exists rest,
     trace (monthly_admissions df) =
       trace (h1 "Monthly Admissions Trend") ++ rest)
  /\ (~ has_admission_dates df ->
      monthly_admissions df = ([], inr tt) /\
      saved_files (trace (monthly_admissions df)) = []).
Proof.
  split; [split|].
  - intros Hd. rewrite (monthly_admissions_runs df Hd). apply bind_trace_prefix.
  - intros [rest Hrest]. destruct (has_admission_dates_dec df) as [|Hno]; [done|].
    rewrite (monthly_admissions_skips df Hno) in Hrest. discriminate.
  - intros Hno. by rewrite (monthly_admissions_skips df Hno).
Qed.

Lemma winter_admissions_dated : has_admission_dates winter_admissions.
Proof.
  eexists. split; [reflexivity|]. simpl. by left.
Qed.

Lemma monthly_admissions_runs_iff_dates_witness :
  (exists rest,
     trace (monthly_admissions winter_admissions) =
       trace (h1 "Monthly Admissions Trend") ++ rest) /\
  monthly_admissions er_icu_costs = ([], inr tt).
Proof.
  split.
  - apply (proj1 (monthly_admissions_runs_iff_dates winter_admissions)).
    exact winter_admissions_dated.
  - apply (proj2 (monthly_admissions_runs_iff_dates er_icu_costs)).
    intros (s & Hs & _). discriminate Hs.
Defined.



Example monthly_winter_admissions :
  monthly winter_admissions =
    ([], inr [ (LTime (timestamp 2024 1 1), 1); (LTime (timestamp 2024 2 1), 2) ]).
Proof. reflexivity. Qed.


(** ** The analyzers after the derivation *)

Lemma select_columns_raises cols df c :
  c ∈ cols -> lookup_col c df = None ->
  exists c', outcome (select_columns cols df) = inl (KeyError c').
Proof.
  induction cols as [|c0 cols IH]; intros Hin Hc; [inversion Hin|].
  simpl. destruct (lookup_col c0 df) as [s|] eqn:H0.
  - assert (c ∈ cols) as Hin'.
    { apply elem_of_cons in Hin as [->|?]; [congruence|done]. }
    destruct (IH Hin' Hc) as [c' Hc']. exists c'.
    erewrite bind_outcome by (by rewrite (getitem_some _ _ _ H0)).
    by apply bind_raises.
  - exists c0. by rewrite (getitem_none _ _ H0).
Qed.

Lemma raises_summary_stats df :
  lookup_col "Length_of_Stay" df = None \/ lookup_col "Cost" df = None ->
  raises (summary_stats df).
Proof.
  intros H. unfold summary_stats. apply raises_then, raises_bind.
  destruct H as [H|H];
    [destruct (select_columns_raises ["Length_of_Stay"; "Cost"] df "Length_of_Stay")
       as [c Hc]
    |destruct (select_columns_raises ["Length_of_Stay"; "Cost"] df "Cost")
       as [c Hc]];
    try done; try (by left); try (right; by left); by exists (KeyError c).
Qed.

Lemma raises_admissions_by_department df :
  lookup_col "Department" df = None -> raises (admissions_by_department df).
Proof. intros H. unfold admissions_by_department. by apply raises_then, raises_getitem. Qed.

Lemma raises_readmission_rates df :
  lookup_col "Readmission" df = None -> raises (readmission_rates df).
Proof. intros H. unfold readmission_rates. by apply raises_then, raises_getitem. Qed.

Lemma raises_report df :
  lookup_col "Department" df = None \/ lookup_col "Readmission" df = None \/
  lookup_col "Length_of_Stay" df = None \/ lookup_col "Cost" df = None ->
  raises (report df).
Proof.
  intros H. unfold report. apply raises_then.
  destruct H as [H|[H|H]].
  - apply raises_then, raises_bind. by apply raises_admissions_by_department.
  - do 3 apply raises_then. apply raises_bind. by apply raises_readmission_rates.
  - apply raises_bind. by apply raises_summary_stats.
Qed.

Lemma pipeline_report df : pipeline df = bind (derive_length_of_stay df) report.
Proof. reflexivity. Qed.

(** ** Absent columns *)

(** Without date columns and without a length of stay the summary
    statistics raise. *)
Lemma skips_silently_claimed_fails : ~ skips_silently_claimed no_length_of_stay.
Proof.
  intros H. destruct (H eq_refl eq_refl) as [a Ha].
  vm_compute in Ha. discriminate.
Qed.

Example pipeline_no_length_of_stay :
  outcome (pipeline no_length_of_stay) = inl (KeyError "Length_of_Stay").
Proof. reflexivity. Qed.

(** C3 (amended). Without an [Admission_Date] column the derivation step
    and the monthly analyzer do nothing and raise nothing. The other
    analyzers do not skip: when [Department], [Readmission],
    [Length_of_Stay] or [Cost] is absent, an exception leaves the
    pipeline. *)
Theorem pipeline_without_admission_dates (df : DataFrame) :
  lookup_col "Admission_Date" df = None ->
  derive_length_of_stay df = ([], inr df) /\
  monthly_admissions df = ([], inr tt) /\
  (lookup_col "Department" df = None \/ lookup_col "Readmission" df = None \/
   lookup_col "Length_of_Stay" df = None \/ lookup_col "Cost" df = None ->
   raises (pipeline df)).
Proof.
  intros Ha.
  assert (~ has_admission_dates df) as Hno by (intros (s & Hs & _); congruence).
  assert (derive_length_of_stay df = ret df) as Hderive
    by (apply derive_skips; by left).
  split; [exact Hderive|]. split; [by apply monthly_admissions_skips|].
  rewrite pipeline_report, Hderive, bind_ret. apply raises_report.
Qed.

Lemma pipeline_without_admission_dates_witness :
  derive_length_of_stay no_length_of_stay = ([], inr no_length_of_stay) /\
  monthly_admissions no_length_of_stay = ([], inr tt) /\
  raises (pipeline no_length_of_stay).
Proof.
  destruct (pipeline_without_admission_dates no_length_of_stay eq_refl)
    as (Hderive & Hmonthly & Hraises).
  split; [exact Hderive|]. split; [exact Hmonthly|].
  apply Hraises. right. right. by left.
Defined.

(** ** Loading *)

Section LoaderFacts.

Variable to_datetime : Series -> list (option Z).

Lemma parse_dates_rounds df :
  parse_dates to_datetime df =
    parse_date_column to_datetime
      (parse_date_column to_datetime df "Admission_Date") "Discharge_Date".
Proof. reflexivity. Qed.

Lemma lookup_parse_date_column_eq df col :
  lookup_col col (parse_date_column to_datetime df col) =
    (fun s => DatetimeSeries (to_datetime s)) <$> lookup_col col df.
Proof.
  unfold parse_date_column. destruct (lookup_col col df) as [s|] eqn:Hs; simpl.
  - apply lookup_setitem_eq.
  - exact Hs.
Qed.

Lemma lookup_parse_date_column_ne df col col' :
  col <> col' ->
  lookup_col col' (parse_date_column to_datetime df col) = lookup_col col' df.
Proof.
  intros Hne. unfold parse_date_column.
  destruct (lookup_col col df); [by apply lookup_setitem_ne | done].
Qed.

(** The loader leaves every other column alone. *)
Lemma lookup_parse_dates_other df col :
  col <> "Admission_Date" -> col <> "Discharge_Date" ->
  lookup_col col (parse_dates to_datetime df) = lookup_col col df.
Proof.
  intros H1 H2. rewrite parse_dates_rounds.
  by rewrite !lookup_parse_date_column_ne.
Qed.

Lemma lookup_parse_dates_admission df :
  lookup_col "Admission_Date" (parse_dates to_datetime df) =
    (fun s => DatetimeSeries (to_datetime s)) <$> lookup_col "Admission_Date" df.
Proof.
  rewrite parse_dates_rounds, lookup_parse_date_column_ne by done.
  apply lookup_parse_date_column_eq.
Qed.

Lemma lookup_parse_dates_discharge df :
  lookup_col "Discharge_Date" (parse_dates to_datetime df) =
    (fun s => DatetimeSeries (to_datetime s)) <$> lookup_col "Discharge_Date" df.
Proof.
  rewrite parse_dates_rounds, lookup_parse_date_column_eq.
  by rewrite lookup_parse_date_column_ne.
Qed.


Lemma load_data_missing fs path :
  path_exists fs path = false ->
  load_data to_datetime fs path =
    ([ PrintPath "Oops — I can't find the dataset at: " path;
       Print "Make sure hospital_data.csv is in the /data folder." ],
     inl (SystemExit 1)).
Proof. intros H. unfold load_data. by rewrite H. Qed.

Lemma load_data_csv fs path raw :
  files fs !! path = Some (CsvFile raw) ->
  load_data to_datetime fs path = ret (parse_dates to_datetime raw).
Proof.
  intros H. unfold load_data, path_exists, read_csv. rewrite H.
  rewrite (bool_decide_eq_true_2 (is_Some (Some (CsvFile raw)))) by eauto.
  rewrite orb_true_r. simpl negb. cbv iota. by rewrite bind_ret.
Qed.

End LoaderFacts.


Lemma raises_bind_r {A B} (m : M A) (k : A -> M B) a :
  outcome m = inr a -> raises (k a) -> raises (bind m k).
Proof. intros Hm [e He]. exists e. by rewrite (bind_outcome _ _ _ Hm). Qed.

(** An absent column that an analyzer reads stops the pipeline, whatever
    the derivation did before. *)
Lemma raises_pipeline df :
  lookup_col "Department" df = None \/ lookup_col "Readmission" df = None \/
  lookup_col "Cost" df = None \/
  (lookup_col "Length_of_Stay" df = None /\
   (lookup_col "Admission_Date" df = None \/ lookup_col "Discharge_Date" df = None)) ->
  raises (pipeline df).
Proof.
  intros H. rewrite pipeline_report.
  destruct (outcome (derive_length_of_stay df)) as [e|df'] eqn:Hrun;
    [apply raises_bind; by exists e|].
  apply (raises_bind_r _ _ df' Hrun), raises_report.
  destruct H as [H|[H|[H|[H Hdate]]]].
  - left. destruct (derive_inv df df' Hrun) as [-> | [xs ->]]; [done|].
    by rewrite lookup_setitem_ne.
  - right. left. destruct (derive_inv df df' Hrun) as [-> | [xs ->]]; [done|].
    by rewrite lookup_setitem_ne.
  - do 3 right. destruct (derive_inv df df' Hrun) as [-> | [xs ->]]; [done|].
    by rewrite lookup_setitem_ne.
  - right. right. left. rewrite (derive_skips df Hdate) in Hrun.
    by injection Hrun as <-.
Qed.

(** ** The figures directory *)

Lemma data_path_not_created fs :
  DATA_PATH fs <> "reports" /\ DATA_PATH fs <> FIG_DIR.
Proof. unfold DATA_PATH. by destruct (path_exists fs "notebooks"). Qed.

Lemma mkdir_fig_dir_creates fs :
  is_file fs "reports" = false -> is_file fs FIG_DIR = false ->
  mkdir_fig_dir fs =
    inr (mkFS ({[ "reports" ]} ∪ {[ FIG_DIR ]} ∪ dirs fs) (files fs)).
Proof. intros H1 H2. unfold mkdir_fig_dir. by rewrite H1, H2. Qed.

(** C10. The figures directory is created when the module is loaded, before
    [load_data] looks for the input: a run that finds no input file ends
    with status 1, has printed only the diagnostic, and leaves
    [reports/figs] on disk. *)
Theorem fig_dir_created_before_missing_input
    (to_datetime : Series -> list (option Z)) (fs : FS) :
  is_file fs "reports" = false ->
  is_file fs FIG_DIR = false ->
  path_exists fs (DATA_PATH fs) = false ->
  exists fs',
    process to_datetime fs =
      (fs',
       [ PrintPath "Oops — I can't find the dataset at: " (DATA_PATH fs);
         Print "Make sure hospital_data.csv is in the /data folder." ],
       1%Z) /\
    FIG_DIR ∈ dirs fs' /\
    files fs' = files fs.
Proof.
  intros H1 H2 Hmissing. unfold process.
  rewrite (mkdir_fig_dir_creates fs H1 H2).
  set (fs1 := mkFS _ _).
  assert (path_exists fs1 (DATA_PATH fs) = false) as Hstill.
  { destruct (data_path_not_created fs) as [Hn1 Hn2].
    unfold path_exists in *. apply orb_false_iff in Hmissing as [Hdir Hfile].
    apply orb_false_iff. split; [|exact Hfile].
    apply bool_decide_eq_false in Hdir. apply bool_decide_eq_false.
    unfold fs1. simpl. rewrite !elem_of_union, !elem_of_singleton.
    intros [[?|?]|?]; done. }
  unfold main. rewrite (load_data_missing _ _ _ Hstill).
  eexists. split; [reflexivity|]. split; [|done].
  unfold fs1. simpl. rewrite !elem_of_union, !elem_of_singleton. left. by right.
Qed.

Lemma fig_dir_created_before_missing_input_witness :
  exists fs',
    process parse_nothing empty_disk =
      (fs',
       [ PrintPath "Oops — I can't find the dataset at: " "data/hospital_data.csv";
         Print "Make sure hospital_data.csv is in the /data folder." ],
       1%Z) /\
    FIG_DIR ∈ dirs fs' /\
    files fs' = files empty_disk.
Proof.
  apply (fig_dir_created_before_missing_input parse_nothing empty_disk);
    reflexivity.
Defined.

(** ** Exit status *)

(** Nothing after [load_data] calls [sys.exit]: an analyzer that fails ends
    with an exception of the library. *)
Lemma never_exits_ret {A} (a : A) : never_exits (ret a).
Proof. by intros c. Qed.

Lemma never_exits_emit ev : never_exits (emit ev).
Proof. by intros c. Qed.

Lemma never_exits_bind {A B} (m : M A) (k : A -> M B) :
  never_exits m -> (forall a, never_exits (k a)) -> never_exits (bind m k).
Proof.
  intros Hm Hk c. destruct m as [out [e|a]]; simpl.
  - intros [= ->]. by apply (Hm c).
  - specialize (Hk a c). destruct (k a) as [out' r]. done.
Qed.

Lemma never_exits_getitem col df : never_exits (getitem col df).
Proof. intros c. unfold getitem. by destruct (lookup_col col df). Qed.

Lemma never_exits_h1 title : never_exits (h1 title).
Proof. by intros c. Qed.

Lemma never_exits_h2 title : never_exits (h2 title).
Proof. by intros c. Qed.

Lemma never_exits_save_bar file : never_exits (save_bar file).
Proof. by intros c. Qed.

Lemma never_exits_plot_bar title data : never_exits (plot_bar title data).
Proof. intros c. unfold plot_bar. by destruct data. Qed.

Lemma never_exits_sub_times xs ys : never_exits (sub_times xs ys).
Proof. intros c. unfold sub_times. by destruct (difference_overflows xs ys). Qed.

Lemma never_exits_table_getitem col t : never_exits (table_getitem col t).
Proof. intros c. unfold table_getitem. by destruct (lookup_tcol _ _). Qed.

Create HintDb run.

Global Hint Resolve never_exits_ret never_exits_emit never_exits_getitem
  never_exits_h1 never_exits_h2 never_exits_save_bar never_exits_plot_bar
  never_exits_sub_times never_exits_table_getitem : run.

Ltac never_exits_step :=
  first [ solve [eauto with run]
        | solve [by intros ?]
        | apply never_exits_bind; [|intros ?]
        | match goal with
          | |- never_exits (if ?b then _ else _) => destruct b
          | |- never_exits (match ?x with _ => _ end) => destruct x
          end ].

Lemma never_exits_select_columns cols df : never_exits (select_columns cols df).
Proof. induction cols as [|c cols IH]; simpl; repeat never_exits_step. Qed.

Lemma never_exits_corr pair : never_exits (corr pair).
Proof.
  induction pair as [|[c s] rest IH]; simpl; [apply never_exits_ret|].
  apply never_exits_bind; [unfold as_float; repeat never_exits_step|].
  intros _. repeat never_exits_step.
Qed.

Lemma never_exits_derive df : never_exits (derive_length_of_stay df).
Proof.
  unfold derive_length_of_stay, series_sub, dt_days, clip.
  repeat never_exits_step.
Qed.

Lemma never_exits_by_dept df : never_exits (by_dept df).
Proof.
  unfold by_dept, table_select. simpl table_select_columns.
  repeat never_exits_step.
Qed.

Global Hint Resolve never_exits_select_columns never_exits_corr never_exits_derive
  never_exits_by_dept : run.

Lemma never_exits_report df : never_exits (report df).
Proof.
  unfold report, basic_overview, summary_stats, admissions_by_department,
    avg_cost_per_department, dept_cost, groupby_mean, readmission_rates,
    los_vs_cost, monthly_admissions, monthly, to_month_start.
  repeat never_exits_step.
Qed.

Lemma never_exits_pipeline df : never_exits (pipeline df).
Proof.
  rewrite pipeline_report. apply never_exits_bind; [apply never_exits_derive|].
  intros df'. apply never_exits_report.
Qed.

(** The exit status of a computation that does not call [sys.exit]. *)
Lemma exit_status_plain {A} (m : M A) :
  never_exits m ->
  (exit_status (outcome m) = 0%Z <-> succeeds m) /\
  (exit_status (outcome m) = 0%Z \/ exit_status (outcome m) = 1%Z) /\
  (raises m -> exit_status (outcome m) = 1%Z).
Proof.
  intros Hm. unfold succeeds, raises.
  destruct (outcome m) as [e|a] eqn:Hout; simpl.
  - destruct e; try (split; [split; [done | by intros [? ?]] | split; [by right | done]]).
    by destruct (Hm code).
  - split; [split; eauto|]. split; [by left|]. by intros [? ?].
Qed.

Lemma main_loaded to_datetime fs path raw :
  files fs !! path = Some (CsvFile raw) ->
  main to_datetime fs path = pipeline (parse_dates to_datetime raw).
Proof. intros H. unfold main. by rewrite (load_data_csv _ _ _ _ H), bind_ret. Qed.

Lemma missing_after_mkdir fs :
  path_exists fs (DATA_PATH fs) = false ->
  path_exists (mkFS ({[ "reports" ]} ∪ {[ FIG_DIR ]} ∪ dirs fs) (files fs))
    (DATA_PATH fs) = false.
Proof.
  intros Hmissing. destruct (data_path_not_created fs) as [Hn1 Hn2].
  unfold path_exists in *. apply orb_false_iff in Hmissing as [Hdir Hfile].
  apply orb_false_iff. split; [|exact Hfile].
  apply bool_decide_eq_false in Hdir. apply bool_decide_eq_false.
  cbn [dirs]. rewrite !elem_of_union, !elem_of_singleton.
  intros [[?|?]|?]; done.
Qed.

(** An input that exists and loads, but lacks a column the analyzers read,
    ends with status 1. *)
Lemma exit_status_claimed_fails :
  ~ exit_status_claimed parse_nothing (disk_with no_length_of_stay)
      "data/hospital_data.csv".
Proof.
  intros [_ H]. specialize (H no_length_of_stay eq_refl).
  vm_compute in H. discriminate.
Qed.

(** C6 (amended). When a regular file is in the way of the figures
    directory, the process ends with status 1 before [main] runs and prints
    nothing. Otherwise: when the input path does not exist, the process
    prints the diagnostic naming the resolved path and ends with status 1;
    when the input exists and loads, the status is 0 exactly when no
    analyzer raises and 1 otherwise, and it is 1 whenever [Department],
    [Readmission] or [Cost] is absent, or [Length_of_Stay] is absent
    together with a date column. *)
Theorem process_exit_status (to_datetime : Series -> list (option Z)) (fs : FS) :
  (is_file fs "reports" = true \/ is_file fs FIG_DIR = true ->
   process to_datetime fs = (fs, [], 1%Z))
  /\
  (is_file fs "reports" = false -> is_file fs FIG_DIR = false ->
   (path_exists fs (DATA_PATH fs) = false ->
    (process to_datetime fs).1.2 =
      [ PrintPath "Oops — I can't find the dataset at: " (DATA_PATH fs);
        Print "Make sure hospital_data.csv is in the /data folder." ] /\
    (process to_datetime fs).2 = 1%Z)
   /\
   (forall raw, files fs !! DATA_PATH fs = Some (CsvFile raw) ->
      ((process to_datetime fs).2 = 0%Z <->
       succeeds (pipeline (parse_dates to_datetime raw))) /\
      ((process to_datetime fs).2 = 0%Z \/ (process to_datetime fs).2 = 1%Z) /\
      (lookup_col "Department" raw = None \/ lookup_col "Readmission" raw = None \/
       lookup_col "Cost" raw = None \/
       (lookup_col "Length_of_Stay" raw = None /\
        (lookup_col "Admission_Date" raw = None \/
         lookup_col "Discharge_Date" raw = None)) ->
       (process to_datetime fs).2 = 1%Z))).
Proof.
  split.
  - intros Hblocked. unfold process, mkdir_fig_dir.
    by destruct Hblocked as [-> | ->]; rewrite ?orb_true_r.
  - intros H1 H2. unfold process. rewrite (mkdir_fig_dir_creates fs H1 H2).
    set (fs1 := mkFS _ _). cbn [fst snd]. split.
    + intros Hmissing. unfold main.
      by rewrite (load_data_missing _ _ _ (missing_after_mkdir fs Hmissing)).
    + intros raw Hfile.
      rewrite (main_loaded to_datetime fs1 (DATA_PATH fs) raw Hfile).
      set (df := parse_dates to_datetime raw).
      destruct (exit_status_plain (pipeline df) (never_exits_pipeline df))
        as (Hzero & Hcases & Hone).
      split; [exact Hzero|]. split; [exact Hcases|].
      intros Habsent. apply Hone, raises_pipeline. unfold df.
      rewrite !lookup_parse_dates_other, lookup_parse_dates_admission,
        lookup_parse_dates_discharge by done.
      destruct Habsent as [->|[->|[->|[-> [->| ->]]]]]; simpl; auto;
        do 3 right; split; auto.
Qed.

Lemma process_exit_status_witness :
  process parse_nothing blocked_disk = (blocked_disk, [], 1%Z) /\
  (process parse_nothing empty_disk).2 = 1%Z /\
  (process parse_nothing (disk_with no_length_of_stay)).2 = 1%Z /\
  (process parse_nothing (disk_with no_dates)).2 = 0%Z.
Proof.
  split; [|split; [|split]].
  - apply (proj1 (process_exit_status parse_nothing blocked_disk)). by left.
  - destruct (proj2 (process_exit_status parse_nothing empty_disk) eq_refl eq_refl)
      as [Hmissing _].
    apply Hmissing. reflexivity.
  - destruct (proj2 (process_exit_status parse_nothing (disk_with no_length_of_stay))
                eq_refl eq_refl) as [_ Hloaded].
    destruct (Hloaded no_length_of_stay eq_refl) as (_ & _ & Hone).
    apply Hone. do 3 right. split; [reflexivity | by left].
  - destruct (proj2 (process_exit_status parse_nothing (disk_with no_dates))
                eq_refl eq_refl) as [_ Hloaded].
    destruct (Hloaded no_dates eq_refl) as (Hzero & _).
    apply Hzero. by exists tt.
Defined.

(** * Further properties of the program *)

(** ** Traces of the parts of the derivation *)

Lemma trace_getitem col df : trace (getitem col df) = [].
Proof. unfold getitem. by destruct (lookup_col col df). Qed.

Lemma trace_sub_times xs ys : trace (sub_times xs ys) = [].
Proof. unfold sub_times. by destruct (difference_overflows xs ys). Qed.

Lemma trace_series_sub a b : trace (series_sub a b) = [].
Proof.
  destruct a, b; try done; simpl;
    (apply trace_bind_nil; [apply trace_sub_times | done]).
Qed.

Lemma trace_dt_days s : trace (dt_days s) = [].
Proof. by destruct s. Qed.

Lemma trace_clip lower s : trace (clip lower s) = [].
Proof. by destruct s. Qed.

(** ** Loading *)

Lemma columns_setitem_present col s s' df :
  lookup_col col df = Some s -> columns (setitem col s' df) = columns df.
Proof.
  unfold columns. induction df as [|[c s0] df IH]; simpl; [discriminate|].
  destruct (decide (c = col)) as [->|Hne]; simpl; [done|].
  intros H. f_equal. by apply IH.
Qed.

Lemma setitem_absent col s df :
  lookup_col col df = None -> setitem col s df = df ++ [(col, s)].
Proof.
  induction df as [|[c s0] df IH]; simpl; [done|].
  destruct (decide (c = col)) as [->|Hne]; [discriminate|].
  intros H. by rewrite IH.
Qed.

Lemma columns_parse_date_column to_datetime df col :
  columns (parse_date_column to_datetime df col) = columns df.
Proof.
  unfold parse_date_column. destruct (lookup_col col df) as [s|] eqn:Hs; [|done].
  by eapply columns_setitem_present.
Qed.

(** X1. Loading an existing CSV prints nothing and returns its table with
    the same column names in the same order; every column other than the
    two date columns is returned as read, and a date column that is present
    becomes a datetime column holding the conversion of what was read. *)
Theorem load_data_keeps_schema
    (to_datetime : Series -> list (option Z)) (fs : FS) (path : string)
    (raw : DataFrame) :
  files fs !! path = Some (CsvFile raw) ->
  exists df,
    load_data to_datetime fs path = ([], inr df) /\
    columns df = columns raw /\
    (forall col, col <> "Admission_Date" -> col <> "Discharge_Date" ->
       lookup_col col df = lookup_col col raw) /\
    (forall col s, col = "Admission_Date" \/ col = "Discharge_Date" ->
       lookup_col col raw = Some s ->
       lookup_col col df = Some (DatetimeSeries (to_datetime s))) /\
    (forall col, lookup_col col raw = None -> lookup_col col df = None).
Proof.
  intros Hfile. exists (parse_dates to_datetime raw).
  split; [by apply load_data_csv|]. split.
  { rewrite parse_dates_rounds. by rewrite !columns_parse_date_column. }
  split; [intros col H1 H2; by apply lookup_parse_dates_other|]. split.
  - intros col s [-> | ->] Hs.
    + by rewrite lookup_parse_dates_admission, Hs.
    + by rewrite lookup_parse_dates_discharge, Hs.
  - intros col Hnone.
    destruct (decide (col = "Admission_Date")) as [->|H1];
      [by rewrite lookup_parse_dates_admission, Hnone|].
    destruct (decide (col = "Discharge_Date")) as [->|H2];
      [by rewrite lookup_parse_dates_discharge, Hnone|].
    by rewrite lookup_parse_dates_other.
Qed.

Lemma load_data_keeps_schema_witness :
  exists df,
    load_data parse_nothing (disk_with partial_stays) "data/hospital_data.csv"
      = ([], inr df) /\
    columns df = columns partial_stays /\
    lookup_col "Length_of_Stay" df = lookup_col "Length_of_Stay" partial_stays /\
    lookup_col "Admission_Date" df = Some (DatetimeSeries [None; None]).
Proof.
  destruct (load_data_keeps_schema parse_nothing (disk_with partial_stays)
              "data/hospital_data.csv" partial_stays eq_refl)
    as (df & Hrun & Hcols & Hother & Hdates & _).
  exists df. split; [exact Hrun|]. split; [exact Hcols|].
  split; [by apply Hother|].
  apply (Hdates "Admission_Date" _ (or_introl eq_refl) eq_refl).
Defined.

(** ** The derivation as an operation on tables *)

Lemma trace_derive df : trace (derive_length_of_stay df) = [].
Proof.
  unfold derive_length_of_stay. destruct (_ && _); [|done].
  apply trace_bind_nil; [apply trace_getitem | intros dis].
  apply trace_bind_nil; [apply trace_getitem | intros adm].
  apply trace_bind_nil; [apply trace_series_sub | intros delta].
  apply trace_bind_nil; [apply trace_dt_days | intros calc].
  apply trace_bind_nil.
  - destruct (negb _); [done|].
    apply trace_bind_nil; [apply trace_getitem | done].
  - intros [|]; [|done]. apply trace_bind_nil; [apply trace_clip | done].
Qed.

Lemma has_column_setitem_ne col col' s df :
  col <> col' -> has_column col' (setitem col s df) = has_column col' df.
Proof.
  intros Hne. destruct (has_column col' df) eqn:H.
  - apply has_column_lookup. rewrite lookup_setitem_ne by done.
    by apply has_column_lookup.
  - apply has_column_false. rewrite lookup_setitem_ne by done.
    by apply has_column_false.
Qed.

Lemma getitem_setitem_ne col col' s df :
  col <> col' -> getitem col' (setitem col s df) = getitem col' df.
Proof. intros Hne. unfold getitem. by rewrite lookup_setitem_ne. Qed.

Lemma setitem_setitem col s s' df :
  setitem col s (setitem col s' df) = setitem col s df.
Proof.
  induction df as [|[c s0] df IH]; simpl.
  - by rewrite decide_True.
  - destruct (decide (c = col)) as [->|Hne]; simpl.
    + by rewrite decide_True.
    + rewrite decide_False by done. by rewrite IH.
Qed.



(** X3. A derivation that returns has changed nothing but [Length_of_Stay]:
    every other column is the same, an existing [Length_of_Stay] column
    keeps its place among the columns, and a new one is appended last. *)
Theorem derive_touches_only_length_of_stay (df df' : DataFrame) :
  outcome (derive_length_of_stay df) = inr df' ->
  (forall col, col <> "Length_of_Stay" -> lookup_col col df' = lookup_col col df) /\
  (is_Some (lookup_col "Length_of_Stay" df) -> columns df' = columns df) /\
  (lookup_col "Length_of_Stay" df = None ->
   df' = df \/ exists xs, df' = df ++ [("Length_of_Stay", FloatSeries xs)]).
Proof.
  intros Hrun. destruct (derive_inv df df' Hrun) as [-> | [xs ->]].
  - split; [done|]. split; [done|]. by left.
  - split; [intros col Hne; by apply lookup_setitem_ne|]. split.
    + intros [s Hs]. by eapply columns_setitem_present.
    + intros Hnone. right. exists xs. by apply setitem_absent.
Qed.

Lemma derive_touches_only_length_of_stay_witness :
  lookup_col "Patient_ID" (setitem "Length_of_Stay" (FloatSeries [None; Some 7%Q])
                             partial_stays)
    = lookup_col "Patient_ID" partial_stays /\
  columns (setitem "Length_of_Stay" (FloatSeries [None; Some 7%Q]) partial_stays)
    = columns partial_stays.
Proof.
  destruct (derive_touches_only_length_of_stay partial_stays
              (setitem "Length_of_Stay" (FloatSeries [None; Some 7%Q]) partial_stays)
              eq_refl) as (Hother & Hcols & _).
  split; [by apply Hother|]. apply Hcols. eexists; reflexivity.
Defined.

(** X4. The derivation is idempotent: applied to its own result it returns
    that result unchanged. *)
Theorem derive_idempotent (df df' : DataFrame) :
  outcome (derive_length_of_stay df) = inr df' ->
  derive_length_of_stay df' = ([], inr df').
Proof.
  intros Hrun. apply run_eq; [apply trace_derive|].
  unfold derive_length_of_stay in Hrun |- *.
  destruct (has_column "Admission_Date" df && has_column "Discharge_Date" df)
    eqn:Hb; [|simpl in Hrun; injection Hrun as <-; by rewrite Hb].
  apply bind_inr_inv in Hrun as (dis & Hdis & Hrun).
  apply bind_inr_inv in Hrun as (adm & Hadm & Hrun).
  apply bind_inr_inv in Hrun as (delta & Hdelta & Hrun).
  apply bind_inr_inv in Hrun as (calc & Hcalc & Hrun).
  apply bind_inr_inv in Hrun as ([|] & Hst & Hrun).
  - apply bind_inr_inv in Hrun as (cl & Hcl & Hrun).
    simpl in Hrun. injection Hrun as <-.
    rewrite !has_column_setitem_ne, Hb by done.
    rewrite !getitem_setitem_ne by done.
    rewrite (bind_outcome _ _ _ Hdis), (bind_outcome _ _ _ Hadm),
      (bind_outcome _ _ _ Hdelta), (bind_outcome _ _ _ Hcalc).
    assert (has_column "Length_of_Stay" (setitem "Length_of_Stay" cl df) = true)
      as -> by (apply has_column_lookup; rewrite lookup_setitem_eq; eauto).
    simpl negb. cbv iota.
    rewrite (getitem_ret _ _ _ (lookup_setitem_eq _ _ _)), !bind_ret.
    destruct (any (isna cl)); [|done].
    rewrite (bind_outcome _ _ _ Hcl). simpl. by rewrite setitem_setitem.
  - simpl in Hrun. injection Hrun as <-. rewrite Hb.
    rewrite (bind_outcome _ _ _ Hdis), (bind_outcome _ _ _ Hadm),
      (bind_outcome _ _ _ Hdelta), (bind_outcome _ _ _ Hcalc),
      (bind_outcome _ _ _ Hst). done.
Qed.

Lemma derive_idempotent_witness :
  derive_length_of_stay
    (setitem "Length_of_Stay" (FloatSeries [None; Some 7%Q]) partial_stays)
  = ([], inr (setitem "Length_of_Stay" (FloatSeries [None; Some 7%Q]) partial_stays)).
Proof. apply (derive_idempotent partial_stays). reflexivity. Defined.

(** ** Counts and shares *)

Global Instance count_ge_total : Total count_ge.
Proof. intros a b. unfold count_ge. lia. Qed.

Lemma value_counts_keys xs : (value_counts xs).*1 ≡ₚ unique xs.
Proof.
  unfold value_counts. rewrite merge_sort_Permutation, <- list_fmap_compose.
  apply reflexive_eq, list_fmap_id.
Qed.

Lemma count_label_le_total c g : count_label c g <= length (omap id g).
Proof.
  induction g as [|[x|] g IH].
  - done.
  - rewrite count_label_cons_Some.
    change (length (omap id (Some x :: g))) with (S (length (omap id g))).
    destruct (decide (x = c)); lia.
  - by rewrite count_label_cons_None.
Qed.

Lemma of_nat_le (a b : nat) : a <= b -> (of_nat a <= of_nat b)%Q.
Proof. intros H. unfold of_nat. rewrite <- Zle_Qle. lia. Qed.

Lemma of_nat_nonneg (a : nat) : (0 <= of_nat a)%Q.
Proof. apply (of_nat_le 0). lia. Qed.

(** A share of a total, as a percentage, lies between 0 and 100. *)
Lemma share_bounds (c t : nat) :
  c <= t -> (0 <= of_nat c / of_nat t * 100 <= 100)%Q.
Proof.
  intros Hct. destruct t as [|t].
  - assert (c = 0) as -> by lia. split; by vm_compute.
  - assert (0 < of_nat (S t))%Q as Hpos.
    { unfold of_nat. change 0%Q with (inject_Z 0). rewrite <- Zlt_Qlt. lia. }
    pose proof (of_nat_nonneg c) as Hc. pose proof (of_nat_le _ _ Hct) as Hle.
    assert (0 <= of_nat c / of_nat (S t))%Q as H0
      by (apply Qle_shift_div_l; [done | lra]).
    assert (of_nat c / of_nat (S t) <= 1)%Q as H1
      by (apply Qle_shift_div_r; [done | lra]).
    split; lra.
Qed.

Lemma round_to_1_percent_bounds x :
  (0 <= x <= 100)%Q -> (0 <= round_to 1 x <= 100)%Q.
Proof.
  intros [H0 H1]. split.
  - change 0%Q with (round_to 1 0). by apply round_to_mono.
  - change 100%Q with (round_to 1 100). by apply round_to_mono.
Qed.

Lemma share_mono (a b t : nat) :
  a <= b -> (of_nat a / of_nat t * 100 <= of_nat b / of_nat t * 100)%Q.
Proof.
  intros Hab. pose proof (of_nat_le _ _ Hab) as Hle.
  assert (0 <= / of_nat t)%Q as Hinv by (apply Qinv_le_0_compat, of_nat_nonneg).
  unfold Qdiv. apply Qmult_le_compat_r; [|done].
  by apply Qmult_le_compat_r.
Qed.

(** X5. The admissions analyzer prints one count per department: every
    department with at least one row appears exactly once, with the number
    of its rows; the counts are in descending order and add up to the
    number of rows that name a department. Rows without a department are in
    no count. *)
Theorem admissions_by_department_counts (df : DataFrame) (dept : Series) :
  lookup_col "Department" df = Some dept ->
  exists vc,
    PrintSeries (counts_series vc) ∈ trace (admissions_by_department df) /\
    NoDup vc.*1 /\
    (forall d, d ∈ vc.*1 <-> Some d ∈ labels dept) /\
    (forall d n, (d, n) ∈ vc -> n = count_label d (labels dept) /\ 0 < n) /\
    Sorted count_ge vc /\
    sum_list vc.*2 = length (omap id (labels dept)).
Proof.
  intros Hd. exists (value_counts (labels dept)). split.
  { unfold admissions_by_department.
    eapply elem_trace_bind_r; [reflexivity|].
    rewrite (getitem_ret _ _ _ Hd), bind_ret.
    apply elem_trace_bind_l. by left. }
  split; [rewrite value_counts_keys; apply NoDup_unique|].
  split; [intros d; rewrite value_counts_keys; apply elem_of_unique|].
  split.
  - intros d n Hin. apply elem_of_value_counts in Hin as [Hin ->].
    split; [done | by apply count_label_pos].
  - split; [apply Sorted_merge_sort, _ | apply group_total_length].
Qed.

Lemma admissions_by_department_counts_witness :
  exists vc,
    PrintSeries (counts_series vc) ∈ trace (admissions_by_department ward_readmissions) /\
    NoDup vc.*1 /\
    (forall d, d ∈ vc.*1 <->
       Some d ∈ labels (ObjectSeries [Some "ER"; Some "ER"; Some "ICU"; Some "ER"])) /\
    (forall d n, (d, n) ∈ vc ->
       n = count_label d
             (labels (ObjectSeries [Some "ER"; Some "ER"; Some "ICU"; Some "ER"]))
       /\ 0 < n) /\
    Sorted count_ge vc /\
    sum_list vc.*2 = 4.
Proof.
  apply (admissions_by_department_counts ward_readmissions
           (ObjectSeries [Some "ER"; Some "ER"; Some "ICU"; Some "ER"])).
  reflexivity.
Defined.

Example admissions_ward_readmissions :
  value_counts (labels (ObjectSeries [Some "ER"; Some "ER"; Some "ICU"; Some "ER"]))
  = [(LStr "ER", 3); (LStr "ICU", 1)].
Proof. reflexivity. Qed.

Lemma overall_as_counts readm :
  overall readm =
    (fun p : label * nat =>
       (p.1, Some (round_to 1 (of_nat p.2 / of_nat (group_total (labels readm)) * 100))))
      <$> value_counts (labels readm).
Proof.
  unfold overall, value_counts_normalized. by rewrite <- list_fmap_compose.
Qed.

(** X6. The overall readmission distribution is printed as soon as the
    [Readmission] column is there, whatever happens later. It lists every
    value that occurs exactly once, with a percentage between 0 and 100, the
    most frequent value first. *)
Theorem overall_distribution (df : DataFrame) (readm : Series) :
  lookup_col "Readmission" df = Some readm ->
  PrintSeries (overall readm) ∈ trace (readmission_rates df) /\
  NoDup (overall readm).*1 /\
  (forall c, c ∈ (overall readm).*1 <-> Some c ∈ labels readm) /\
  (forall c v, (c, v) ∈ overall readm ->
     exists q, v = Some q /\ (0 <= q <= 100)%Q) /\
  Sorted entry_ge (overall readm).
Proof.
  intros Hr. split.
  { unfold readmission_rates.
    eapply elem_trace_bind_r; [reflexivity|].
    rewrite (getitem_ret _ _ _ Hr), bind_ret.
    eapply elem_trace_bind_r; [reflexivity|].
    apply elem_trace_bind_l. by left. }
  assert ((overall readm).*1 ≡ₚ unique (labels readm)) as Hkeys.
  { rewrite overall_as_counts, <- list_fmap_compose.
    change (fst ∘ _) with (@fst label nat). apply value_counts_keys. }
  split; [rewrite Hkeys; apply NoDup_unique|].
  split; [intros c; rewrite Hkeys; apply elem_of_unique|].
  split.
  - intros c v Hin. rewrite overall_as_counts in Hin.
    apply list_elem_of_fmap in Hin as ([c' n] & [= -> ->] & Hin).
    apply elem_of_value_counts in Hin as [_ ->]. simpl.
    rewrite group_total_length. eexists. split; [reflexivity|].
    apply round_to_1_percent_bounds, share_bounds, count_label_le_total.
  - rewrite overall_as_counts.
    eapply Sorted_fmap; [|apply Sorted_merge_sort, _].
    intros a b Hab. unfold entry_ge, count_ge in *. simpl.
    apply Qle_bool_iff, round_to_mono, share_mono, Hab.
Qed.

Lemma overall_distribution_witness :
  PrintSeries (overall (ObjectSeries [Some "Yes"; Some "No"; Some "No"; Some "No"]))
    ∈ trace (readmission_rates ward_readmissions) /\
  Sorted entry_ge (overall (ObjectSeries [Some "Yes"; Some "No"; Some "No"; Some "No"])).
Proof.
  destruct (overall_distribution ward_readmissions
              (ObjectSeries [Some "Yes"; Some "No"; Some "No"; Some "No"]) eq_refl)
    as (Hprint & _ & _ & _ & Hsorted).
  split; [exact Hprint | exact Hsorted].
Defined.

Example overall_one_in_four :
  overall (ObjectSeries [Some "Yes"; Some "No"; Some "No"; Some "No"])
  = [(LStr "No", Some 75%Q); (LStr "Yes", Some 25%Q)].
Proof. reflexivity. Qed.

(** ** The average cost per department *)






Example dept_cost_er_icu :
  dept_cost er_icu_costs =
    ([], inr [(LStr "ICU", Some 500%Q); (LStr "ER", Some 200%Q)]).
Proof. reflexivity. Qed.

(** ** The rows of the per-department table *)

Global Instance label_le_total : Total label_le.
Proof.
  intros [p|s|t] [q|s'|t']; unfold label_le; simpl; auto.
  - rewrite !Qle_bool_iff. destruct (Qlt_le_dec p q); [left|right]; lra.
  - apply String.leb_total.
  - rewrite !Z.leb_le. lia.
Qed.

(** X7. The per-department table has one row for every department in which
    some row has a non-missing [Readmission] value, and no other row: a
    department whose readmission values are all missing is left out. The
    rows are in ascending order of the department, without repetition, and
    every percentage lies between 0 and 100. *)
Theorem by_dept_rows (df : DataFrame) (dept readm : Series) :
  lookup_col "Department" df = Some dept ->
  lookup_col "Readmission" df = Some readm ->
  exists t,
    by_dept df = ([], inr t) /\
    NoDup (index t) /\
    Sorted label_le (index t) /\
    (forall d, d ∈ index t <->
       exists c, Some c ∈ group_rows d (labels dept) (labels readm)) /\
    (forall col cells q, (col, cells) ∈ tcolumns t -> Some q ∈ cells ->
       (0 <= q <= 100)%Q).
Proof.
  intros Hd Hr. eexists. split; [by apply by_dept_closed_form|].
  cbn [index tcolumns]. set (recs := dept_readmission_pct dept readm).
  split; [apply NoDup_unique|].
  split; [apply Sorted_merge_sort, _|]. split.
  - intros d. split.
    + intros Hin. destruct (index_department dept readm d Hin) as [_ Hpos].
      destruct (omap id (group_rows d (labels dept) (labels readm)))
        as [|c l] eqn:Hg; [simpl in Hpos; lia|].
      exists c. assert (c ∈ c :: l) as Hc by (by left). rewrite <- Hg in Hc.
      apply list_elem_of_omap in Hc as (x & Hx & Hid). simpl in Hid. by subst.
    + intros [c Hc]. apply elem_of_unique, list_elem_of_fmap.
      eexists (d, c, _). split; [reflexivity|].
      apply elem_of_dept_readmission_pct.
      split; [by eapply group_rows_key|]. split; [done | reflexivity].
  - assert (forall c q,
              Some q ∈ pct_cell recs c <$> unique ((fun x => Some x.1.1) <$> recs) ->
              (0 <= q <= 100)%Q) as Hcell.
    { intros c q Hin. apply list_elem_of_fmap in Hin as (d & Hq & Hin).
      destruct (index_department dept readm d Hin) as [Hdin _].
      unfold recs in Hq. rewrite pct_cell_value in Hq by done.
      injection Hq as ->. apply round_to_1_percent_bounds, share_bounds.
      rewrite group_total_length. apply count_label_le_total. }
    intros col cells q Hin Hq.
    apply elem_of_cons in Hin as [[= -> ->]|Hin];
      [|apply elem_of_cons in Hin as [[= -> ->]|Hin]; [|inversion Hin]];
      by eapply Hcell.
Qed.

Lemma by_dept_rows_witness :
  exists t,
    by_dept ward_readmissions = ([], inr t) /\
    NoDup (index t) /\
    Sorted label_le (index t) /\
    (forall d, d ∈ index t <->
       exists c,
         Some c ∈ group_rows d
           (labels (ObjectSeries [Some "ER"; Some "ER"; Some "ICU"; Some "ER"]))
           (labels (ObjectSeries [Some "Yes"; Some "No"; Some "No"; Some "No"]))) /\
    (forall col cells q, (col, cells) ∈ tcolumns t -> Some q ∈ cells ->
       (0 <= q <= 100)%Q).
Proof.
  apply (by_dept_rows ward_readmissions
           (ObjectSeries [Some "ER"; Some "ER"; Some "ICU"; Some "ER"])
           (ObjectSeries [Some "Yes"; Some "No"; Some "No"; Some "No"]));
    reflexivity.
Defined.

(** ** The monthly analyzer: missing identifier column, and totals *)







(** ** The figures a run saves *)

Lemma saved_files_app out1 out2 :
  saved_files (out1 ++ out2) = saved_files out1 ++ saved_files out2.
Proof.
  unfold saved_files. apply omap_app.
Qed.

Lemma saved_bind {A B} (m : M A) (k : A -> M B) :
  saved (bind m k) =
    saved m ++ match outcome m with inr a => saved (k a) | inl _ => [] end.
Proof.
  unfold saved. destruct (outcome m) as [e|a] eqn:Hm.
  - rewrite (trace_bind_raises _ _ _ Hm). by rewrite app_nil_r.
  - rewrite (trace_bind _ _ _ Hm). apply saved_files_app.
Qed.

Lemma saved_seq {A B} (m : M A) (k : M B) :
  saved (bind m (fun _ => k)) = saved m ++ if ok m then saved k else [].
Proof. rewrite saved_bind. unfold ok. by destruct (outcome m). Qed.

Lemma ok_bind {A B} (m : M A) (k : A -> M B) :
  ok (bind m k) = match outcome m with inr a => ok (k a) | inl _ => false end.
Proof.
  unfold ok. destruct (outcome m) as [e|a] eqn:Hm.
  - by rewrite (bind_raises _ _ _ Hm).
  - by rewrite (bind_outcome _ _ _ Hm).
Qed.

Lemma ok_seq {A B} (m : M A) (k : M B) :
  ok (bind m (fun _ => k)) = ok m && ok k.
Proof. rewrite ok_bind. unfold ok. by destruct (outcome m). Qed.

Lemma ok_succeeds {A} (m : M A) : ok m = true <-> succeeds m.
Proof.
  unfold ok, succeeds. destruct (outcome m) as [e|a]; split; try done.
  - intros [a Ha]. discriminate.
  - eauto.
Qed.

Lemma saved_nil {A} (m : M A) : trace m = [] -> saved m = [].
Proof. unfold saved. by intros ->. Qed.

Lemma saved_basic_overview df : saved (basic_overview df) = [] /\ ok (basic_overview df) = true.
Proof. done. Qed.

Lemma saved_summary_stats df : saved (summary_stats df) = [].
Proof.
  assert (trace (select_columns ["Length_of_Stay"; "Cost"] df) = []) as Hsel.
  { simpl. unfold getitem.
    destruct (lookup_col "Length_of_Stay" df), (lookup_col "Cost" df); done. }
  unfold summary_stats. rewrite saved_seq, saved_bind, (saved_nil _ Hsel).
  by destruct (outcome _).
Qed.

(** An analyzer saves its one figure as its last step: whatever comes before
    saves nothing. *)
Lemma saved_after {A} (pre : M A) (k : A -> M unit) (file : string) :
  saved pre = [] ->
  (forall a, saved (k a) = if ok (k a) then [file] else []) ->
  saved (bind pre k) = if ok (bind pre k) then [file] else [].
Proof.
  intros Hpre Hk. rewrite saved_bind, ok_bind, Hpre.
  destruct (outcome pre); [done | apply Hk].
Qed.

Lemma saved_plot_bar title data file :
  saved (plot_bar title data >> save_bar file) =
    if ok (plot_bar title data >> save_bar file) then [path_join FIG_DIR file] else [].
Proof. unfold plot_bar. by destruct data. Qed.

Lemma trace_select_columns cols df : trace (select_columns cols df) = [].
Proof.
  induction cols as [|c cols IH]; [done|]. simpl.
  apply trace_bind_nil; [apply trace_getitem | intros s].
  apply trace_bind_nil; [exact IH | done].
Qed.

Lemma trace_corr pair : trace (corr pair) = [].
Proof.
  induction pair as [|[c s] rest IH]; [done|]. simpl.
  apply trace_bind_nil.
  - destruct s as [xs|xs|xs|xs]; simpl; try done. by destruct (all _).
  - intros _. apply trace_bind_nil; [exact IH | done].
Qed.

Lemma trace_dept_cost df : trace (dept_cost df) = [].
Proof.
  unfold dept_cost.
  apply trace_bind_nil; [apply trace_getitem | intros dept].
  apply trace_bind_nil; [apply trace_getitem | intros cost].
  apply trace_bind_nil; [by destruct cost | done].
Qed.

Lemma trace_by_dept df : trace (by_dept df) = [].
Proof.
  destruct (lookup_col "Department" df) as [dept|] eqn:Hd.
  - destruct (lookup_col "Readmission" df) as [readm|] eqn:Hr.
    + by rewrite (by_dept_closed_form df dept readm Hd Hr).
    + unfold by_dept.
      by rewrite (getitem_ret _ _ _ Hd), bind_ret, (getitem_none _ _ Hr).
  - unfold by_dept. by rewrite (getitem_none _ _ Hd).
Qed.

Lemma trace_table_getitem col t : trace (table_getitem col t) = [].
Proof. unfold table_getitem. by destruct (lookup_tcol _ _). Qed.

Lemma saved_admissions_by_department df :
  saved (admissions_by_department df) =
    if ok (admissions_by_department df)
    then [path_join FIG_DIR "admissions_by_department.png"] else [].
Proof.
  unfold admissions_by_department.
  apply saved_after; [done | intros _].
  apply saved_after; [apply saved_nil, trace_getitem | intros dept].
  apply saved_after; [done | intros _].
  apply saved_plot_bar.
Qed.

Lemma saved_avg_cost_per_department df :
  saved (avg_cost_per_department df) =
    if ok (avg_cost_per_department df)
    then [path_join FIG_DIR "avg_cost_by_department.png"] else [].
Proof.
  unfold avg_cost_per_department.
  apply saved_after; [done | intros _].
  apply saved_after; [apply saved_nil, trace_dept_cost | intros means].
  apply saved_after; [done | intros _].
  apply saved_plot_bar.
Qed.

Lemma saved_readmission_rates df :
  saved (readmission_rates df) =
    if ok (readmission_rates df)
    then [path_join FIG_DIR "readmission_yes_by_department.png"] else [].
Proof.
  unfold readmission_rates.
  apply saved_after; [done | intros _].
  apply saved_after; [apply saved_nil, trace_getitem | intros readm].
  do 3 (apply saved_after; [done | intros _]).
  apply saved_after; [apply saved_nil, trace_by_dept | intros t].
  apply saved_after; [done | intros _].
  apply saved_after; [apply saved_nil, trace_table_getitem | intros yes].
  apply saved_plot_bar.
Qed.

Lemma saved_los_vs_cost df :
  saved (los_vs_cost df) =
    if ok (los_vs_cost df)
    then [path_join FIG_DIR "length_of_stay_vs_cost.png"] else [].
Proof.
  unfold los_vs_cost.
  apply saved_after; [done | intros _].
  apply saved_after; [apply saved_nil, trace_select_columns | intros pair].
  apply saved_after; [apply saved_nil, trace_corr | intros pair'].
  done.
Qed.

Lemma dates_usable_spec df : dates_usable df = true <-> has_admission_dates df.
Proof.
  unfold dates_usable, has_admission_dates.
  destruct (lookup_col "Admission_Date" df) as [s|].
  - rewrite negb_true_iff, all_false_iff. split; [eauto|].
    by intros (s' & [= <-] & H).
  - split; [done | intros (? & ? & _); done].
Qed.

Lemma trace_monthly df : trace (monthly df) = [].
Proof.
  unfold monthly.
  apply trace_bind_nil; [apply trace_getitem | intros adm].
  apply trace_bind_nil; [by destruct adm | intros ym].
  apply trace_bind_nil; [apply trace_getitem | intros keys].
  apply trace_bind_nil; [apply trace_getitem | done].
Qed.

Lemma saved_monthly_admissions df :
  saved (monthly_admissions df) =
    if dates_usable df && ok (monthly_admissions df) then [monthly_figure] else [].
Proof.
  destruct (dates_usable df) eqn:Hu.
  - apply dates_usable_spec in Hu. rewrite (monthly_admissions_runs df Hu).
    rewrite saved_seq, ok_seq, saved_bind, ok_bind. simpl.
    rewrite (saved_nil _ (trace_monthly df)). by destruct (outcome (monthly df)).
  - rewrite monthly_admissions_skips; [done|].
    intros H. apply dates_usable_spec in H. congruence.
Qed.

(** The figures saved by the analyzers, given which of them end normally. *)
Lemma saved_report df :
  saved (report df) =
    if ok (summary_stats df) then
      (if ok (admissions_by_department df)
       then [path_join FIG_DIR "admissions_by_department.png"] else []) ++
      if ok (admissions_by_department df) then
        (if ok (avg_cost_per_department df)
         then [path_join FIG_DIR "avg_cost_by_department.png"] else []) ++
        if ok (avg_cost_per_department df) then
          (if ok (readmission_rates df)
           then [path_join FIG_DIR "readmission_yes_by_department.png"] else []) ++
          if ok (readmission_rates df) then
            (if ok (los_vs_cost df)
             then [path_join FIG_DIR "length_of_stay_vs_cost.png"] else []) ++
            if ok (los_vs_cost df) then
              if dates_usable df && ok (monthly_admissions df)
              then [monthly_figure] else []
            else []
          else []
        else []
      else []
    else [].
Proof.
  unfold report. rewrite !saved_seq.
  rewrite (proj1 (saved_basic_overview df)), (proj2 (saved_basic_overview df)).
  rewrite saved_summary_stats, saved_admissions_by_department,
    saved_avg_cost_per_department, saved_readmission_rates, saved_los_vs_cost,
    saved_monthly_admissions.
  change (saved (h1 "Done")) with (@nil string).
  change (saved (emit (PrintPath "Figures saved under: " FIG_DIR))) with (@nil string).
  destruct (ok (summary_stats df)); [|done].
  destruct (ok (admissions_by_department df)); [|done].
  destruct (ok (avg_cost_per_department df)); [|done].
  destruct (ok (readmission_rates df)); [|done].
  destruct (ok (los_vs_cost df)); [|done].
  destruct (dates_usable df), (ok (monthly_admissions df)); done.
Qed.

Lemma saved_report_prefix df : saved (report df) `prefix_of` figure_files.
Proof.
  rewrite saved_report.
  destruct (ok (summary_stats df)); [|apply prefix_nil].
  destruct (ok (admissions_by_department df)); [|apply prefix_nil].
  destruct (ok (avg_cost_per_department df)); [|by eexists].
  destruct (ok (readmission_rates df)); [|by eexists].
  destruct (ok (los_vs_cost df)); [|by eexists].
  destruct (dates_usable df && ok (monthly_admissions df)); by eexists.
Qed.

Lemma saved_pipeline df :
  saved (pipeline df) =
    match outcome (derive_length_of_stay df) with
    | inr df' => saved (report df')
    | inl _ => []
    end.
Proof.
  rewrite pipeline_report, saved_bind. by rewrite (saved_nil _ (trace_derive df)).
Qed.

Lemma saved_pipeline_prefix df : saved (pipeline df) `prefix_of` figure_files.
Proof.
  rewrite saved_pipeline. destruct (outcome _); [apply prefix_nil|].
  apply saved_report_prefix.
Qed.

Lemma saved_main_prefix to_datetime fs path :
  saved (main to_datetime fs path) `prefix_of` figure_files.
Proof.
  unfold main. rewrite saved_bind.
  assert (saved (load_data to_datetime fs path) = []) as ->.
  { unfold load_data, read_csv. destruct (negb _); [done|].
    by destruct (files fs !! path) as [[]|]. }
  destruct (outcome _); [apply prefix_nil | apply saved_pipeline_prefix].
Qed.

(** X10. Whatever the table and however the run ends, the figures saved are
    an initial segment of the five fixed files under [reports/figs], in the
    order of the analyzers: no other file is ever written, no figure is
    written twice, and an analyzer that raises leaves no figure of its own
    or of a later analyzer. *)
Theorem saved_figures_initial_segment :
  (forall df, saved (pipeline df) `prefix_of` figure_files) /\
  (forall to_datetime fs path,
     saved (main to_datetime fs path) `prefix_of` figure_files) /\
  figure_files =
    [ "reports/figs/admissions_by_department.png";
      "reports/figs/avg_cost_by_department.png";
      "reports/figs/readmission_yes_by_department.png";
      "reports/figs/length_of_stay_vs_cost.png";
      "reports/figs/monthly_admissions.png" ].
Proof.
  split; [exact saved_pipeline_prefix|]. split; [exact saved_main_prefix | reflexivity].
Qed.

Example saved_pipeline_no_length_of_stay : saved (pipeline no_length_of_stay) = [].
Proof. reflexivity. Qed.

Lemma saved_figures_initial_segment_witness :
  saved (pipeline no_length_of_stay) `prefix_of` figure_files /\
  saved (main parse_nothing (disk_with no_dates) "data/hospital_data.csv")
    `prefix_of` figure_files.
Proof.
  split.
  - apply (proj1 saved_figures_initial_segment no_length_of_stay).
  - apply (proj1 (proj2 saved_figures_initial_segment)).
Defined.

Lemma ok_report df :
  ok (report df) =
    ok (summary_stats df) && ok (admissions_by_department df) &&
    ok (avg_cost_per_department df) && ok (readmission_rates df) &&
    ok (los_vs_cost df) && ok (monthly_admissions df).
Proof.
  unfold report. rewrite !ok_seq.
  rewrite (proj2 (saved_basic_overview df)).
  change (ok (h1 "Done")) with true.
  change (ok (emit (PrintPath "Figures saved under: " FIG_DIR))) with true.
  simpl. by rewrite !andb_true_r, !andb_assoc.
Qed.

Lemma dates_usable_derive df df' :
  outcome (derive_length_of_stay df) = inr df' -> dates_usable df' = dates_usable df.
Proof.
  intros Hrun. unfold dates_usable.
  destruct (derive_inv df df' Hrun) as [-> | [xs ->]]; [done|].
  by rewrite lookup_setitem_ne.
Qed.

Lemma ok_pipeline df :
  ok (pipeline df) =
    match outcome (derive_length_of_stay df) with
    | inr df' => ok (report df')
    | inl _ => false
    end.
Proof. rewrite pipeline_report. apply ok_bind. Qed.

(** X11. A run of the pipeline that ends normally has saved exactly the four
    department and scatter figures, followed by the monthly figure when the
    admission dates are usable. Conversely the monthly figure is saved only
    by a run that ends normally: if the pipeline raises, that file is not
    written. *)
Theorem complete_run_figures (df : DataFrame) :
  (succeeds (pipeline df) ->
   saved (pipeline df) =
     core_figures ++ if dates_usable df then [monthly_figure] else []) /\
  (monthly_figure ∈ saved (pipeline df) ->
   succeeds (pipeline df) /\ dates_usable df = true).
Proof.
  rewrite <- ok_succeeds, ok_pipeline, saved_pipeline.
  destruct (outcome (derive_length_of_stay df)) as [e|df'] eqn:Hrun;
    [split; [done | intros H; inversion H]|].
  rewrite <- (dates_usable_derive df df' Hrun), ok_report, saved_report.
  destruct (ok (summary_stats df')); [|split; [done | intros H; inversion H]].
  destruct (ok (admissions_by_department df'));
    [|split; [done | intros H; inversion H]].
  assert (forall l, monthly_figure ∈ l -> l `prefix_of` core_figures -> False)
    as Hnot.
  { intros l Hin [k Hk]. assert (monthly_figure ∈ core_figures) as Hc
      by (rewrite Hk; apply elem_of_app; by left).
    vm_compute in Hc.
    repeat (apply elem_of_cons in Hc as [Hc|Hc]; [discriminate Hc|]).
    inversion Hc. }
  destruct (ok (avg_cost_per_department df'));
    [|split; [done | intros H; exfalso; apply (Hnot _ H); by eexists]].
  destruct (ok (readmission_rates df'));
    [|split; [done | intros H; exfalso; apply (Hnot _ H); by eexists]].
  destruct (ok (los_vs_cost df'));
    [|split; [done | intros H; exfalso; apply (Hnot _ H); by eexists]].
  destruct (dates_usable df'), (ok (monthly_admissions df')); simpl;
    (split; [done | intros H; try done; exfalso; apply (Hnot _ H); by eexists]).
Qed.

Lemma complete_run_figures_witness :
  saved (pipeline no_dates) = core_figures.
Proof.
  rewrite (proj1 (complete_run_figures no_dates)); [reflexivity|].
  by apply ok_succeeds.
Defined.

(** ** The file system after a run *)

Lemma lookup_write_figures out fs p :
  files (write_figures out fs) !! p =
    if decide (p ∈ saved_files out) then Some OtherFile else files fs !! p.
Proof.
  unfold write_figures. simpl. induction (saved_files out) as [|q l IH]; simpl.
  - destruct (decide (p ∈ [])) as [H|]; [inversion H | done].
  - destruct (decide (q = p)) as [->|Hne].
    + rewrite lookup_insert_eq. by rewrite decide_True by (by left).
    + rewrite lookup_insert_ne by done. rewrite IH.
      destruct (decide (p ∈ l)) as [Hin|Hnin].
      * by rewrite decide_True by (by right).
      * rewrite decide_False; [done|]. intros [->|?]%elem_of_cons; done.
Qed.

Lemma dirs_write_figures out fs : dirs (write_figures out fs) = dirs fs.
Proof. done. Qed.

Lemma mkdir_fig_dir_inv fs fs1 :
  mkdir_fig_dir fs = inr fs1 ->
  is_file fs "reports" = false /\ is_file fs FIG_DIR = false /\
  fs1 = mkFS ({[ "reports" ]} ∪ {[ FIG_DIR ]} ∪ dirs fs) (files fs).
Proof.
  unfold mkdir_fig_dir.
  destruct (is_file fs "reports"), (is_file fs FIG_DIR); simpl; try discriminate.
  by intros [= <-].
Qed.

Ltac not_a_figure H :=
  vm_compute in H;
  repeat (apply elem_of_cons in H as [H|H]; [discriminate H|]);
  inversion H.

Lemma data_path_not_a_figure fs : DATA_PATH fs ∉ figure_files.
Proof.
  unfold DATA_PATH. destruct (path_exists fs "notebooks"); intros H; not_a_figure H.
Qed.

Lemma saved_in_figure_files to_datetime fs path p :
  p ∈ saved (main to_datetime fs path) -> p ∈ figure_files.
Proof.
  intros Hin. destruct (saved_main_prefix to_datetime fs path) as [k ->].
  apply elem_of_app. by left.
Qed.

(** A run reads the file system only at its input path. *)
Lemma main_ext to_datetime fs1 fs2 path :
  path_exists fs1 path = path_exists fs2 path ->
  files fs1 !! path = files fs2 !! path ->
  main to_datetime fs1 path = main to_datetime fs2 path.
Proof.
  intros He Hf. unfold main, load_data, read_csv. by rewrite He, Hf.
Qed.

(** The file system a run leaves: the figures directory and the figures. *)
Lemma process_file_system to_datetime fs fs1 :
  mkdir_fig_dir fs = inr fs1 ->
  process to_datetime fs =
    (write_figures (trace (main to_datetime fs1 (DATA_PATH fs))) fs1,
     trace (main to_datetime fs1 (DATA_PATH fs)),
     exit_status (outcome (main to_datetime fs1 (DATA_PATH fs)))).
Proof. intros H. unfold process. by rewrite H. Qed.

Lemma process_blocked to_datetime fs e :
  mkdir_fig_dir fs = inl e -> process to_datetime fs = (fs, [], 1%Z).
Proof.
  intros H. unfold process. rewrite H.
  unfold mkdir_fig_dir in H. by destruct (_ || _); [injection H as <-|].
Qed.

(** X12. A run changes no file other than the figures it saves, and these
    are among the five fixed files: every other path, the input file among
    them, holds after the run what it held before, so a figure left by an
    earlier run stays when this run does not reach its analyzer; and the
    only directories a run can add are [reports] and [reports/figs]. *)
Theorem process_touches_only_figures
    (to_datetime : Series -> list (option Z)) (fs : FS) :
  (forall p, p ∈ saved_files (process to_datetime fs).1.2 -> p ∈ figure_files) /\
  (forall p, p ∉ saved_files (process to_datetime fs).1.2 ->
     files (process to_datetime fs).1.1 !! p = files fs !! p) /\
  files (process to_datetime fs).1.1 !! DATA_PATH fs = files fs !! DATA_PATH fs /\
  (forall d, d ∈ dirs (process to_datetime fs).1.1 ->
     d ∈ dirs fs \/ d = "reports" \/ d = FIG_DIR) /\
  (forall d, d ∈ dirs fs -> d ∈ dirs (process to_datetime fs).1.1).
Proof.
  assert (forall p, p ∈ saved_files (process to_datetime fs).1.2 ->
            p ∈ figure_files) as Hsaved.
  { intros p. destruct (mkdir_fig_dir fs) as [e|fs1] eqn:Hmk.
    - rewrite (process_blocked _ _ _ Hmk). intros H. inversion H.
    - rewrite (process_file_system _ _ _ Hmk). cbn [fst snd].
      apply saved_in_figure_files. }
  assert (forall p, p ∉ saved_files (process to_datetime fs).1.2 ->
            files (process to_datetime fs).1.1 !! p = files fs !! p) as Hfiles.
  { intros p. destruct (mkdir_fig_dir fs) as [e|fs1] eqn:Hmk.
    - by rewrite (process_blocked _ _ _ Hmk).
    - rewrite (process_file_system _ _ _ Hmk). cbn [fst snd]. intros Hp.
      rewrite lookup_write_figures, decide_False by done.
      by destruct (mkdir_fig_dir_inv _ _ Hmk) as (_ & _ & ->). }
  split; [exact Hsaved|]. split; [exact Hfiles|].
  split.
  { apply Hfiles. intros H. by apply (data_path_not_a_figure fs), Hsaved. }
  destruct (mkdir_fig_dir fs) as [e|fs1] eqn:Hmk.
  - rewrite (process_blocked _ _ _ Hmk). split; [by left | done].
  - rewrite (process_file_system _ _ _ Hmk). cbn [fst].
    rewrite dirs_write_figures.
    destruct (mkdir_fig_dir_inv _ _ Hmk) as (_ & _ & ->). simpl. split.
    + intros d. rewrite !elem_of_union, !elem_of_singleton. tauto.
    + intros d Hd. rewrite !elem_of_union. by right.
Qed.

Example process_keeps_earlier_figure :
  files (process parse_nothing (disk_after_run no_length_of_stay)).1.1
    !! monthly_figure = Some OtherFile.
Proof. by vm_compute. Qed.

Lemma process_touches_only_figures_witness :
  files (process parse_nothing (disk_after_run no_length_of_stay)).1.1
    !! monthly_figure = Some OtherFile /\
  files (process parse_nothing (disk_after_run no_length_of_stay)).1.1
    !! DATA_PATH (disk_after_run no_length_of_stay)
  = Some (CsvFile no_length_of_stay).
Proof.
  destruct (process_touches_only_figures parse_nothing
              (disk_after_run no_length_of_stay)) as (_ & Hkeep & Hinput & _).
  split.
  - rewrite Hkeep; [by vm_compute|]. vm_compute. intros H. inversion H.
  - rewrite Hinput. by vm_compute.
Defined.

(** ** Running the program again *)

Lemma path_exists_ext fs1 fs2 p :
  (p ∈ dirs fs1 <-> p ∈ dirs fs2) -> files fs1 !! p = files fs2 !! p ->
  path_exists fs1 p = path_exists fs2 p.
Proof.
  intros Hd Hf. unfold path_exists. rewrite Hf. f_equal.
  apply bool_decide_ext, Hd.
Qed.

Lemma write_figures_twice out fs1 fs2 :
  dirs fs2 = dirs fs1 -> files fs2 = files (write_figures out fs1) ->
  write_figures out fs2 = write_figures out fs1.
Proof.
  intros Hd Hf.
  assert (files (write_figures out fs2) = files (write_figures out fs1)) as Hfiles.
  { apply map_eq. intros p. rewrite !lookup_write_figures, Hf, lookup_write_figures.
    by destruct (decide _). }
  destruct (write_figures out fs2) as [d2 f2] eqn:H2,
    (write_figures out fs1) as [d1 f1] eqn:H1.
  assert (d2 = dirs (write_figures out fs2)) as -> by (by rewrite H2).
  assert (d1 = dirs (write_figures out fs1)) as -> by (by rewrite H1).
  simpl in Hfiles. subst f2. rewrite !dirs_write_figures. by rewrite Hd.
Qed.

(** X13. Running the program a second time on what the first run left
    behind repeats it exactly: the same output, the same exit status and the
    same file system, the figures being overwritten in place. *)
Theorem process_rerun (to_datetime : Series -> list (option Z)) (fs : FS) :
  process to_datetime (process to_datetime fs).1.1 = process to_datetime fs.
Proof.
  destruct (mkdir_fig_dir fs) as [e|fs1] eqn:Hmk.
  { rewrite (process_blocked _ _ _ Hmk). cbn [fst].
    by apply (process_blocked _ _ e). }
  destruct (mkdir_fig_dir_inv _ _ Hmk) as (Hr & Hf & Hfs1).
  rewrite (process_file_system _ _ _ Hmk). cbn [fst].
  set (run := main to_datetime fs1 (DATA_PATH fs)).
  set (fs' := write_figures (trace run) fs1).
  assert (forall p, p ∉ figure_files -> files fs' !! p = files fs !! p) as Hkeep.
  { intros p Hp. unfold fs'. rewrite lookup_write_figures, Hfs1.
    destruct (decide _) as [Hin|]; [|done].
    exfalso. apply Hp. by eapply saved_in_figure_files. }
  assert (dirs fs' = {[ "reports" ]} ∪ {[ FIG_DIR ]} ∪ dirs fs) as Hdirs
    by (unfold fs'; by rewrite dirs_write_figures, Hfs1).
  assert (files fs' = files (write_figures (trace run) fs1)) as Hfiles by done.
  clearbody fs'.
  assert (DATA_PATH fs' = DATA_PATH fs) as Hpath.
  { unfold DATA_PATH. rewrite (path_exists_ext fs' fs "notebooks"); [done| |].
    - rewrite Hdirs, !elem_of_union, !elem_of_singleton.
      split; [intros [[?|?]|?]; done | by right].
    - apply Hkeep. intros H. not_a_figure H. }
  assert (mkdir_fig_dir fs' =
            inr (mkFS ({[ "reports" ]} ∪ {[ FIG_DIR ]} ∪ dirs fs') (files fs')))
    as Hmk'.
  { apply mkdir_fig_dir_creates.
    - unfold is_file in *. rewrite Hkeep; [done|]. intros H. not_a_figure H.
    - unfold is_file in *. rewrite Hkeep; [done|]. intros H. not_a_figure H. }
  rewrite (process_file_system _ _ _ Hmk'), Hpath.
  set (fs1' := mkFS _ (files fs')).
  assert (main to_datetime fs1' (DATA_PATH fs) = run) as Hrun.
  { apply main_ext.
    - apply path_exists_ext.
      + unfold fs1'. cbn [dirs files]. rewrite Hdirs, Hfs1. cbn [dirs files].
        rewrite !elem_of_union, !elem_of_singleton. tauto.
      + unfold fs1'. cbn [dirs files].
        rewrite Hkeep by apply data_path_not_a_figure. by rewrite Hfs1.
    - unfold fs1'. cbn [dirs files].
      rewrite Hkeep by apply data_path_not_a_figure. by rewrite Hfs1. }
  rewrite Hrun.
  assert (write_figures (trace run) fs1' = write_figures (trace run) fs1) as Hw.
  { apply write_figures_twice; [|exact Hfiles].
    unfold fs1'. cbn [dirs files]. rewrite Hdirs, Hfs1. cbn [dirs files].
    apply set_eq. intros d. rewrite !elem_of_union, !elem_of_singleton. tauto. }
  rewrite Hw.
  assert (write_figures (trace run) fs1 = fs') as <-; [|done].
  destruct fs' as [d' f']. simpl in Hdirs, Hfiles. subst d' f'.
  unfold write_figures. by rewrite Hfs1.
Qed.

Example process_rerun_no_dates :
  (process parse_nothing (process parse_nothing (disk_with no_dates)).1.1).2 = 0%Z.
Proof. by vm_compute. Qed.

Lemma process_rerun_witness :
  process parse_nothing (process parse_nothing (disk_with no_dates)).1.1
  = process parse_nothing (disk_with no_dates).
Proof. apply (process_rerun parse_nothing (disk_with no_dates)). Defined.

(** ** Missing values after the derivation *)

Lemma missing_counts_lookup col s df :
  lookup_col col df = Some s ->
  (LStr col, Some (of_nat (count_true (isna s)))) ∈ missing_counts df.
Proof.
  unfold missing_counts. induction df as [|[c s0] df IH]; simpl; [discriminate|].
  destruct (decide (c = col)) as [->|Hne].
  - intros [= ->]. by left.
  - intros H. right. by apply IH.
Qed.

Lemma count_true_cons b bs :
  count_true (b :: bs) = (if b then 1 else 0) + count_true bs.
Proof. unfold count_true. rewrite filter_cons. by destruct b. Qed.

Lemma missing_recomputed_los adm dis :
  count_true (isna (FloatSeries (recomputed_los adm dis))) =
    length (filter lacks_date (zip adm dis)).
Proof.
  unfold recomputed_los, clamped. cbn [isna]. revert dis.
  induction adm as [|a adm IH]; intros [|d dis]; try done.
  simpl zip. rewrite filter_cons. cbn [zip_with]. rewrite !fmap_cons, count_true_cons.
  specialize (IH dis). unfold count_true in IH |- *. rewrite IH.
  by destruct a as [ta|], d as [td|].
Qed.

(** X14. When the length of stay is derived and every row's date difference
    fits the 64-bit range, the number of missing values that the summary
    then reports for [Length_of_Stay] is the number of rows that lack an
    admission or a discharge date. *)
Theorem derived_length_of_stay_missing_count
    (df : DataFrame) (adm dis : list (option Z)) :
  lookup_col "Admission_Date" df = Some (DatetimeSeries adm) ->
  lookup_col "Discharge_Date" df = Some (DatetimeSeries dis) ->
  differences_fit dis adm = true ->
  (lookup_col "Length_of_Stay" df = None \/
   exists s, lookup_col "Length_of_Stay" df = Some s /\ any (isna s) = true) ->
  exists df',
    derive_length_of_stay df = ([], inr df') /\
    (LStr "Length_of_Stay",
     Some (of_nat (length (filter lacks_date (zip adm dis)))))
      ∈ missing_counts df'.
Proof.
  intros Ha Hd Hfit Hs. eexists. split; [by apply (derive_replaces df adm dis)|].
  rewrite <- missing_recomputed_los.
  apply missing_counts_lookup, lookup_setitem_eq.
Qed.

Lemma derived_length_of_stay_missing_count_witness :
  exists df',
    derive_length_of_stay inverted_dates = ([], inr df') /\
    (LStr "Length_of_Stay", Some 1%Q) ∈ missing_counts df'.
Proof.
  apply (derived_length_of_stay_missing_count inverted_dates
           [Some (timestamp 2024 3 5); Some (timestamp 2024 2 27); None]
           [Some (timestamp 2024 3 1); Some (timestamp 2024 3 2);
            Some (timestamp 2024 3 9)]).
  - reflexivity.
  - reflexivity.
  - reflexivity.
  - by left.
Defined.

(** ** The chart of readmission rates *)

Global Instance entry_ge_trans : Transitive entry_ge.
Proof.
  intros [a [p|]] [b [q|]] [c [r|]]; unfold entry_ge; simpl; try done.
  rewrite !Qle_bool_iff. intros. lra.
Qed.

Lemma draw_plot_bar title data :
  Draw (BarChart title data) ∈ trace (plot_bar title data).
Proof. unfold plot_bar. destruct data; by left. Qed.

(** X15. The bar chart of the readmission analyzer shows the "Yes" column of
    the per-department table: every department of the table once, with its
    rate, the highest rate first and every later bar no higher than any
    earlier one. *)
Theorem readmission_chart_sorted (df : DataFrame) (dept readm : Series) :
  lookup_col "Department" df = Some dept ->
  lookup_col "Readmission" df = Some readm ->
  exists t yes data,
    by_dept df = ([], inr t) /\
    lookup_tcol (LStr "Yes") (tcolumns t) = Some yes /\
    Draw (BarChart "Readmission Rate (YES) by Department" data)
      ∈ trace (readmission_rates df) /\
    data ≡ₚ zip (index t) yes /\
    StronglySorted entry_ge data.
Proof.
  intros Hd Hr. do 3 eexists.
  split; [by apply by_dept_closed_form|]. split; [reflexivity|]. split.
  { unfold readmission_rates.
    eapply elem_trace_bind_r; [reflexivity|].
    rewrite (getitem_ret _ _ _ Hr), bind_ret.
    do 3 (eapply elem_trace_bind_r; [reflexivity|]).
    rewrite (by_dept_closed_form df dept readm Hd Hr), bind_ret.
    do 2 (eapply elem_trace_bind_r; [reflexivity|]).
    apply elem_trace_bind_l, draw_plot_bar. }
  split.
  - apply merge_sort_Permutation.
  - apply StronglySorted_merge_sort; apply _.
Qed.

Lemma readmission_chart_sorted_witness :
  exists t yes data,
    by_dept ward_readmissions = ([], inr t) /\
    lookup_tcol (LStr "Yes") (tcolumns t) = Some yes /\
    Draw (BarChart "Readmission Rate (YES) by Department" data)
      ∈ trace (readmission_rates ward_readmissions) /\
    data ≡ₚ zip (index t) yes /\
    StronglySorted entry_ge data.
Proof.
  apply (readmission_chart_sorted ward_readmissions
           (ObjectSeries [Some "ER"; Some "ER"; Some "ICU"; Some "ER"])
           (ObjectSeries [Some "Yes"; Some "No"; Some "No"; Some "No"]));
    reflexivity.
Defined.
